(** * gglogic: boolean logic devices evaluated on demand

    A shallow embedding of [src/gglogic.py].  Devices are Python objects
    that reference each other (a latch is two gates wired into a cycle), so
    the embedding keeps an explicit object store: a device is a record held
    in a heap indexed by object identity, and every method is a function in
    a small state-and-exception monad over that heap.  Evaluation of a
    source ([v()]) may recurse through the wiring; it is defined by
    recursion on a bound of the call depth. *)

From Stdlib Require Import ZArith List Bool Lia.
From stdpp Require Import gmap strings list fin_maps.

Local Open Scope Z_scope.
Local Open Scope nat_scope.

(** ** Scalar values *)

(** The values a source produces: [None] (floating), a [bool], an [int]. *)
Inductive pyval : Type :=
  | VNone
  | VBool (b : bool)
  | VInt (z : Z).

(** The number a value stands for under Python's [==] ([True == 1]). *)
Definition as_int (v : pyval) : option Z :=
  match v with
  | VNone => None
  | VBool b => Some (if b then 1%Z else 0%Z)
  | VInt z => Some z
  end.

(** Python's [a == b] on scalars. *)
Definition py_eq (a b : pyval) : bool :=
  match as_int a, as_int b with
  | None, None => true
  | Some x, Some y => Z.eqb x y
  | _, _ => false
  end.

(** Python's truth test of a scalar ([if v:]). *)
Definition truthy (v : pyval) : bool :=
  match v with
  | VNone => false
  | VBool b => b
  | VInt z => negb (Z.eqb z 0)
  end.

(** [list.count(x)]. *)
Definition count (x : pyval) (l : list pyval) : nat :=
  length (List.filter (fun y => py_eq y x) l).

(** ** Objects *)

(** Accessors of a composite that are passed around as bound methods. *)
Inductive method : Type := MQ | MQ_.

(** A zero-argument callable: a function returning a constant (what
    [Eval] wraps a constant in), a device (called through [__call__]), or
    a bound accessor of a device. *)
Inductive callable : Type :=
  | CLambda (v : pyval)
  | CDev (d : nat)
  | CBound (d : nat) (m : method).

(** A Python object handed to the wiring interface. *)
Inductive pyobj : Type :=
  | OVal (v : pyval)
  | OCall (c : callable).

(** An argument that is one object or a sequence (list, tuple) of them. *)
Inductive pyarg : Type :=
  | One (o : pyobj)
  | Seq (l : list pyobj).

Inductive devclass : Type :=
  | BoolNOT | BoolAND | BoolNOR | BoolNAND | BoolSRFF | BoolJKFF | TestDevice.

Record device : Type := mkDevice {
  cls : devclass;
  _input : list callable;
  _enable : callable;
  _indict : gmap string callable;
  ingetvalue : bool;
  lastget : pyval;
  InputNames : list string;
  IC1 : option nat;
  IC2 : option nat;
  ICJ : option nat;
  ICK : option nat
}.

Definition set_input (l : list callable) (d : device) : device :=
  mkDevice (cls d) l (_enable d) (_indict d) (ingetvalue d) (lastget d)
           (InputNames d) (IC1 d) (IC2 d) (ICJ d) (ICK d).
Definition set_enable (c : callable) (d : device) : device :=
  mkDevice (cls d) (_input d) c (_indict d) (ingetvalue d) (lastget d)
           (InputNames d) (IC1 d) (IC2 d) (ICJ d) (ICK d).
Definition set_indict (m : gmap string callable) (d : device) : device :=
  mkDevice (cls d) (_input d) (_enable d) m (ingetvalue d) (lastget d)
           (InputNames d) (IC1 d) (IC2 d) (ICJ d) (ICK d).
Definition set_ingetvalue (b : bool) (d : device) : device :=
  mkDevice (cls d) (_input d) (_enable d) (_indict d) b (lastget d)
           (InputNames d) (IC1 d) (IC2 d) (ICJ d) (ICK d).
Definition set_lastget (v : pyval) (d : device) : device :=
  mkDevice (cls d) (_input d) (_enable d) (_indict d) (ingetvalue d) v
           (InputNames d) (IC1 d) (IC2 d) (ICJ d) (ICK d).
Definition set_InputNames (l : list string) (d : device) : device :=
  mkDevice (cls d) (_input d) (_enable d) (_indict d) (ingetvalue d) (lastget d)
           l (IC1 d) (IC2 d) (ICJ d) (ICK d).
Definition set_IC1 (r : nat) (d : device) : device :=
  mkDevice (cls d) (_input d) (_enable d) (_indict d) (ingetvalue d) (lastget d)
           (InputNames d) (Some r) (IC2 d) (ICJ d) (ICK d).
Definition set_IC2 (r : nat) (d : device) : device :=
  mkDevice (cls d) (_input d) (_enable d) (_indict d) (ingetvalue d) (lastget d)
           (InputNames d) (IC1 d) (Some r) (ICJ d) (ICK d).
Definition set_ICJ (r : nat) (d : device) : device :=
  mkDevice (cls d) (_input d) (_enable d) (_indict d) (ingetvalue d) (lastget d)
           (InputNames d) (IC1 d) (IC2 d) (Some r) (ICK d).
Definition set_ICK (r : nat) (d : device) : device :=
  mkDevice (cls d) (_input d) (_enable d) (_indict d) (ingetvalue d) (lastget d)
           (InputNames d) (IC1 d) (IC2 d) (ICJ d) (Some r).

(** ** The object store *)

(** [heap] maps an object identity to the device living there, [next] is
    the next identity to hand out, [stdout] collects what [print] wrote.
    [evals] is instrumentation, not program state: the devices whose
    undecorated value function was entered, most recent first. *)
Record world : Type := mkWorld {
  heap : gmap nat device;
  next : nat;
  stdout : list (list pyobj);
  evals : list nat
}.

Definition empty_world : world := mkWorld ∅ 0 [] [].

Definition set_heap (h : gmap nat device) (w : world) : world :=
  mkWorld h (next w) (stdout w) (evals w).

Definition store (i : nat) (d : device) (w : world) : world :=
  set_heap (<[i:=d]> (heap w)) w.

(** ** Exceptions and the evaluation monad *)

Inductive pyerr : Type :=
  | TypeError
  | ValueError (msg : string)
  | KeyError (key : string)
  | IndexError
  | AttributeError
  | NoSuchObject.

(** A computation returns a value, raises, or exceeds the depth bound;
    the first two carry the store as the computation left it. *)
Inductive outcome (A : Type) : Type :=
  | Returns (a : A) (w : world)
  | Raises (e : pyerr) (w : world)
  | TooDeep.
Arguments Returns {A} a w.
Arguments Raises {A} e w.
Arguments TooDeep {A}.

Definition M (A : Type) : Type := world -> outcome A.

Definition ret {A} (a : A) : M A := fun w => Returns a w.
Definition raise {A} (e : pyerr) : M A := fun w => Raises e w.
Definition bind {A B} (m : M A) (k : A -> M B) : M B :=
  fun w =>
    match m w with
    | Returns a w' => k a w'
    | Raises e w' => Raises e w'
    | TooDeep => TooDeep
    end.

Declare Scope py_scope.
Delimit Scope py_scope with py.
Notation "'let*' x ':=' c1 'in' c2" := (bind c1 (fun x => c2))
  (at level 10, x name, c1 at level 100, c2 at level 200) : py_scope.
Notation "c1 '>>' c2" := (bind c1 (fun _ => c2))
  (at level 62, right associativity) : py_scope.
Local Open Scope py_scope.

(** Read the object [self]. *)
Definition getobj (self : nat) : M device :=
  fun w =>
    match heap w !! self with
    | Some d => Returns d w
    | None => Raises NoSuchObject w
    end.

(** Assign attributes of [self]. *)
Definition modify (self : nat) (f : device -> device) : M unit :=
  fun w =>
    match heap w !! self with
    | Some d => Returns tt (store self (f d) w)
    | None => Raises NoSuchObject w
    end.

(** Instrumentation: note that the value function of [self] is entered. *)
Definition note (self : nat) (w : world) : world :=
  mkWorld (heap w) (next w) (stdout w) (self :: evals w).
Definition tick (self : nat) : M unit :=
  fun w => Returns tt (note self w).

(** [print] of a tuple of objects. *)
Definition printed (objs : list pyobj) (w : world) : world :=
  mkWorld (heap w) (next w) (objs :: stdout w) (evals w).
Definition print (objs : list pyobj) : M unit :=
  fun w => Returns tt (printed objs w).

(** Read an attribute that holds a sub-device. *)
Definition subdevice (o : option nat) : M nat :=
  match o with
  | Some r => ret r
  | None => raise AttributeError
  end.

(** ** [recursiontrap] *)

Definition recursiontrap (handler : nat -> M pyval) (self : nat) : M pyval :=
  let* d := getobj self in
  if negb (ingetvalue d) then
    modify self (set_ingetvalue true) >>
    tick self >>
    let* r := handler self in
    modify self (set_lastget r) >>
    modify self (set_ingetvalue false) >>
    let* d' := getobj self in
    ret (lastget d')
  else
    modify self (set_ingetvalue false) >>
    let* d' := getobj self in
    ret (lastget d').

(** ** Wiring *)

(** Modelled from the spec: [Eval], a method of the base class
    [_MathDynamic], which [src/ggmath.py] does not define.  The spec has
    it convert a constant or a zero-argument evaluator into a source; the
    code under [src/] calls every result with no argument, so a constant
    becomes a function returning it and a callable is kept as it is. *)
Definition Eval (o : pyobj) : callable :=
  match o with
  | OVal v => CLambda v
  | OCall c => c
  end.

(** The setter of [In]: [list(val)] raises [TypeError] on an object that
    is not a sequence, and the handler stores that one object. *)
Definition In_set (self : nat) (val : pyarg) : M unit :=
  match val with
  | Seq l => modify self (set_input (map Eval l))
  | One o => modify self (set_input [Eval o])
  end.

(** The setter of [Enable]. *)
Definition Enable_set (self : nat) (val : pyobj) : M unit :=
  modify self (set_enable (Eval val)).

(** The truth test [if obj:] of a function or a device object: neither
    class defines [__bool__] or [__len__], so every such object is true. *)
Definition object_truth (c : callable) : bool :=
  match c with
  | CLambda _ => true
  | CDev _ => true
  | CBound _ _ => true
  end.

(** ** Evaluation, given how to call a source *)

Section Devices.

(** [ev c] is the call [c()]. *)
Variable ev : callable -> M pyval.

(** Calling an arbitrary object: a scalar is not callable. *)
Definition call_obj (o : pyobj) : M pyval :=
  match o with
  | OVal _ => raise TypeError
  | OCall c => ev c
  end.

(** [[v() for v in inputs]]. *)
Fixpoint call_all (inputs : list pyobj) : M (list pyval) :=
  match inputs with
  | [] => ret []
  | v :: rest =>
      let* x := call_obj v in
      let* xs := call_all rest in
      ret (x :: xs)
  end.

(** [_inputState]: [[].extend(value)] raises [TypeError] when [value] is
    not iterable, and evaluates to [None] when it is; iterating over
    [None] raises [TypeError]. *)
Definition _inputState (value : pyarg) : M pyval :=
  let inputs : option (list pyobj) :=
    match value with
    | Seq _ => None
    | One o => Some [o]
    end in
  let* scalars :=
    match inputs with
    | None => raise TypeError
    | Some l => call_all l
    end in
  let ones := count (VBool true) scalars + count (VInt 1) scalars in
  let zeros := count (VBool false) scalars + count (VInt 0) scalars in
  if (0 <? ones) && (0 <? zeros) then raise (ValueError "Conflicting inputs found")
  else if 0 <? ones then ret (VBool true)
  else if 0 <? zeros then ret (VBool false)
  else ret VNone.

(** [BoolNOT._getvalue], undecorated. *)
Definition BoolNOT_getvalue (self : nat) : M pyval :=
  let* d := getobj self in
  match _input d with
  | [] => raise IndexError
  | v :: _ =>
      let* inval := _inputState (One (OCall v)) in
      if py_eq inval VNone then ret (VBool true)
      else ret (VBool (negb (truthy inval)))
  end.

(** The loop of [BoolAND._getvalue]. *)
Fixpoint BoolAND_loop (l : list callable) : M pyval :=
  match l with
  | [] => ret (VBool true)
  | v :: rest =>
      let* x := _inputState (One (OCall v)) in
      if negb (truthy x) then ret (VBool false) else BoolAND_loop rest
  end.

(** The loop of [BoolNOR._getvalue]. *)
Fixpoint BoolNOR_loop (l : list callable) : M pyval :=
  match l with
  | [] => ret (VBool true)
  | v :: rest =>
      let* x := _inputState (One (OCall v)) in
      if truthy x then ret (VBool false) else BoolNOR_loop rest
  end.

(** The loop of [BoolNAND._getvalue]. *)
Fixpoint BoolNAND_loop (l : list callable) : M pyval :=
  match l with
  | [] => ret (VBool false)
  | v :: rest =>
      let* x := _inputState (One (OCall v)) in
      if negb (truthy x) then ret (VBool true) else BoolNAND_loop rest
  end.

Definition BoolAND_getvalue (self : nat) : M pyval :=
  let* d := getobj self in BoolAND_loop (_input d).
Definition BoolNOR_getvalue (self : nat) : M pyval :=
  let* d := getobj self in BoolNOR_loop (_input d).
Definition BoolNAND_getvalue (self : nat) : M pyval :=
  let* d := getobj self in BoolNAND_loop (_input d).

(** [self._getvalue()], resolved by the class of [self]: the gates
    decorate theirs with [recursiontrap], the composites and
    [TestDevice] do not. *)
Definition _getvalue (self : nat) : M pyval :=
  let* d := getobj self in
  match cls d with
  | BoolNOT => recursiontrap BoolNOT_getvalue self
  | BoolAND => recursiontrap BoolAND_getvalue self
  | BoolNOR => recursiontrap BoolNOR_getvalue self
  | BoolNAND => recursiontrap BoolNAND_getvalue self
  | BoolSRFF | BoolJKFF =>
      let* ic := subdevice (IC1 d) in ev (CDev ic)
  | TestDevice => ret VNone
  end.

(** [_BoolDevice.__call__]. *)
Definition __call__ (self : nat) : M pyval :=
  let* d := getobj self in
  if object_truth (_enable d) then _getvalue self else ret VNone.

(** [Q] and [Q_] of the two composites. *)
Definition Q (self : nat) : M pyval :=
  let* d := getobj self in
  match cls d with
  | BoolSRFF | BoolJKFF => _getvalue self
  | _ => raise AttributeError
  end.

Definition Q_ (self : nat) : M pyval :=
  let* d := getobj self in
  match cls d with
  | BoolSRFF | BoolJKFF =>
      let* ic := subdevice (IC2 d) in ev (CDev ic)
  | _ => raise AttributeError
  end.

(** One call [c()], nested calls going through [ev]. *)
Definition call_callable (c : callable) : M pyval :=
  match c with
  | CLambda v => ret v
  | CDev d => __call__ d
  | CBound d MQ => Q d
  | CBound d MQ_ => Q_ d
  end.

(** [_BoolDevice.GetInput]. *)
Definition GetInput (self : nat) (inputname : string) : M pyval :=
  let* d := getobj self in
  match _indict d !! inputname with
  | None => raise (KeyError inputname)
  | Some src => _inputState (One (OCall src))
  end.

(** [_BoolDevice.SetInput]. *)
Definition _BoolDevice_SetInput (self : nat) (inputname : string)
    (reference : pyobj) : M unit :=
  let* d := getobj self in
  modify self (set_indict (<[inputname := Eval reference]> (_indict d))).

(** [BoolSRFF.SetInput]. *)
Definition BoolSRFF_SetInput (self : nat) (inputname : string)
    (reference : pyobj) : M unit :=
  _BoolDevice_SetInput self inputname reference >>
  let* d := getobj self in
  if String.eqb inputname "R" then
    let* ic1 := subdevice (IC1 d) in
    let* ic2 := subdevice (IC2 d) in
    In_set ic1 (Seq [reference; OCall (CDev ic2)])
  else if String.eqb inputname "S" then
    let* ic2 := subdevice (IC2 d) in
    let* ic1 := subdevice (IC1 d) in
    In_set ic2 (Seq [reference; OCall (CDev ic1)])
  else ret tt.

(** The loop of [BoolJKFF.SetInput]: [true] when it ran to its end,
    [false] when it left the method through [return]. *)
Fixpoint all_bound (self : nat) (names : list string) : M bool :=
  match names with
  | [] => ret true
  | i :: rest =>
      let* d := getobj self in
      match _indict d !! i with
      | None => raise (KeyError i)
      | Some src =>
          let* x := ev src in
          match x with
          | VNone => ret false
          | _ => all_bound self rest
          end
      end
  end.

(** [BoolJKFF.SetInput]; the two assignments to [ICJ.In] and [ICK.In]
    are comments in the source. *)
Definition BoolJKFF_SetInput (self : nat) (inputname : string)
    (reference : pyobj) : M unit :=
  _BoolDevice_SetInput self inputname reference >>
  let* d := getobj self in
  let* ok := all_bound self (InputNames d) in
  if ok then
    let* d := getobj self in
    let* ic2 := subdevice (IC2 d) in
    let* j := (match _indict d !! "J" with Some s => ret s | None => raise (KeyError "J") end) in
    let* k := (match _indict d !! "K" with Some s => ret s | None => raise (KeyError "K") end) in
    let* clk := (match _indict d !! "CLK" with Some s => ret s | None => raise (KeyError "CLK") end) in
    print [OCall (CDev ic2); OCall j; OCall k; OCall clk]
  else ret tt.

(** [self.SetInput(...)], resolved by the class of [self]. *)
Definition SetInput (self : nat) (inputname : string) (reference : pyobj) : M unit :=
  let* d := getobj self in
  match cls d with
  | BoolSRFF => BoolSRFF_SetInput self inputname reference
  | BoolJKFF => BoolJKFF_SetInput self inputname reference
  | _ => _BoolDevice_SetInput self inputname reference
  end.

(** [TestDevice.out1] and [out2]: Python's [and] and [or] return one of
    their operands. *)
Definition out1 (self : nat) : M pyval :=
  let* a := GetInput self "in1" in
  if truthy a then GetInput self "in2" else ret a.

Definition out2 (self : nat) : M pyval :=
  let* a := GetInput self "in1" in
  if truthy a then ret a else GetInput self "in2".

End Devices.

(** [run n c] is the call [c()] with at most [n] nested calls. *)
Fixpoint run (n : nat) (c : callable) : M pyval :=
  match n with
  | 0 => fun _ => TooDeep
  | S n' => call_callable (run n') c
  end.

(** ** Construction *)

(** A new object of class [c], before its [__init__] has run. *)
Definition blank (c : devclass) : device :=
  mkDevice c [] (CLambda VNone) ∅ false VNone [] None None None None.

Definition bump (w : world) : world :=
  mkWorld (heap w) (S (next w)) (stdout w) (evals w).

Definition alloc (c : devclass) : M nat :=
  fun w => Returns (next w) (store (next w) (blank c) (bump w)).

(** [{name: self.Eval(None) for name in namedinputs}]. *)
Definition initial_indict (namedinputs : list string) : gmap string callable :=
  foldl (fun m name => <[name := Eval (OVal VNone)]> m) ∅ namedinputs.

(** [_BoolDevice.__init__]. *)
Definition _BoolDevice_init (self : nat) (mininputqty : nat)
    (namedinputs : list string) : M unit :=
  In_set self (Seq (repeat (OVal VNone) mininputqty)) >>
  Enable_set self (OVal (VBool true)) >>
  modify self (set_indict (initial_indict namedinputs)) >>
  modify self (set_ingetvalue false) >>
  modify self (set_lastget VNone).

(** [_BoolOneInput.__init__] and [_BoolMultiInput.__init__]. *)
Definition _BoolOneInput_init (self : nat) (namedinputs : list string) : M unit :=
  _BoolDevice_init self 1 namedinputs.
Definition _BoolMultiInput_init (self : nat) (namedinputs : list string) : M unit :=
  _BoolDevice_init self 2 namedinputs.

(** The minimum number of inputs a class declares. *)
Definition mininputqty (c : devclass) : nat :=
  match c with
  | BoolAND | BoolNOR | BoolNAND => 2
  | BoolNOT | BoolSRFF | BoolJKFF | TestDevice => 1
  end.

(** [c(namedinputs=...)] for a gate class, which inherits its
    constructor from [_BoolOneInput] or [_BoolMultiInput]. *)
Definition new_gate (c : devclass) (namedinputs : list string) : M nat :=
  let* self := alloc c in
  match mininputqty c with
  | 1 => _BoolOneInput_init self namedinputs
  | _ => _BoolMultiInput_init self namedinputs
  end >>
  ret self.

(** [TestDevice.__init__]. *)
Definition new_TestDevice : M nat :=
  let* self := alloc TestDevice in
  _BoolOneInput_init self ["in1"; "in2"]%string >>
  ret self.

(** [BoolSRFF.__init__], given the call [gate()]. *)
Definition BoolSRFF_init (gate : M nat) : M nat :=
  let* self := alloc BoolSRFF in
  _BoolOneInput_init self ["R"; "S"]%string >>
  let* ic1 := gate in
  modify self (set_IC1 ic1) >>
  let* ic2 := gate in
  modify self (set_IC2 ic2) >>
  ret self.

(** [BoolJKFF.__init__]. *)
Definition new_BoolJKFF : M nat :=
  let* self := alloc BoolJKFF in
  modify self (set_InputNames ["J"; "K"; "CLK"]%string) >>
  _BoolOneInput_init self ["J"; "K"; "CLK"]%string >>
  let* ic1 := new_gate BoolNAND [] in
  modify self (set_IC1 ic1) >>
  let* ic2 := new_gate BoolNAND [] in
  modify self (set_IC2 ic2) >>
  let* icj := new_gate BoolNAND [] in
  modify self (set_ICJ icj) >>
  let* ick := new_gate BoolNAND [] in
  modify self (set_ICK ick) >>
  In_set ic1 (Seq [OCall (CDev icj); OCall (CDev ic2)]) >>
  In_set ic2 (Seq [OCall (CDev ick); OCall (CDev ic1)]) >>
  ret self.

(** [c()], a class called with no argument. *)
Definition new_default (c : devclass) : M nat :=
  match c with
  | BoolSRFF => BoolSRFF_init (new_gate BoolNOR [])
  | BoolJKFF => new_BoolJKFF
  | TestDevice => new_TestDevice
  | g => new_gate g []
  end.

(** [BoolSRFF(gateclass=...)]: [kwargs.get('gateclass', BoolNOR)]. *)
Definition new_BoolSRFF (gateclass : option devclass) : M nat :=
  BoolSRFF_init (new_default (default BoolNOR gateclass)).

(** The value a finished computation returned. *)
Definition returned {A} (o : outcome A) : option A :=
  match o with
  | Returns a _ => Some a
  | _ => None
  end.

(** The store a finished computation left. *)
Definition final_world {A} (o : outcome A) : option world :=
  match o with
  | Returns _ w => Some w
  | Raises _ w => Some w
  | TooDeep => None
  end.

(** The exception a computation raised. *)
Definition raised {A} (o : outcome A) : option pyerr :=
  match o with
  | Raises e _ => Some e
  | _ => None
  end.

(** ** Vocabulary of the statements *)

(** The store in which [recursiontrap] runs the value function of [self]:
    the mark is set (and the entry is noted). *)
Definition entered (self : nat) (d : device) (w : world) : world :=
  note self (store self (set_ingetvalue true d) w).

(** The tri-state signal one scalar stands for: asserted-true for
    [True] and [1], asserted-false for [False] and [0], floating
    otherwise. *)
Definition resolve (v : pyval) : pyval :=
  if py_eq v (VBool true) then VBool true
  else if py_eq v (VBool false) then VBool false
  else VNone.

(** A scalar that resolves asserted-true. *)
Definition asserted (v : pyval) : bool := truthy (resolve v).

(** The three multi-input loops are one scan: leave with [early] at the
    first input whose truth is [stop], else return [final]. *)
Record scan_shape : Type := mkShape {
  stop : bool;
  early : pyval;
  final : pyval
}.

Definition shape_of (c : devclass) : option scan_shape :=
  match c with
  | BoolAND => Some (mkShape false (VBool false) (VBool true))
  | BoolNOR => Some (mkShape true (VBool false) (VBool true))
  | BoolNAND => Some (mkShape false (VBool true) (VBool false))
  | _ => None
  end.

Fixpoint scan (ev : callable -> M pyval) (p : scan_shape) (l : list callable) : M pyval :=
  match l with
  | [] => ret (final p)
  | v :: rest =>
      let* x := _inputState ev (One (OCall v)) in
      if Bool.eqb (truthy x) (stop p) then ret (early p) else scan ev p rest
  end.

(** What of a device is wiring, as opposed to the state of its trap. *)
Definition wiring (d : device) :=
  (cls d, _input d, _enable d, _indict d, InputNames d, (IC1 d, IC2 d, ICJ d, ICK d)).

(** [w'] has the objects of [w], wired as in [w]. *)
Definition same_wiring (w w' : world) : Prop :=
  forall j : nat, wiring <$> (heap w' !! j) = wiring <$> (heap w !! j).

(** A computation that rewires nothing, however it ends. *)
Definition keeps_wiring {A} (m : M A) : Prop :=
  forall w : world,
    match m w with
    | Returns _ w' => same_wiring w w'
    | Raises _ w' => same_wiring w w'
    | TooDeep => True
    end.

(** Whether the scan of shape [p] leaves at an input of value [v]. *)
Definition stops (p : scan_shape) (v : pyval) : bool :=
  Bool.eqb (truthy (resolve v)) (stop p).

(** What the scan of shape [p] returns on two inputs of values [a], [b]. *)
Definition gate_out (p : scan_shape) (a b : pyval) : pyval :=
  if stops p a then early p else if stops p b then early p else final p.

(** The latch [l] is made of the gates [i1] and [i2] of class [c]; their
    inputs are [in1] and [in2], their cached values [q1] and [q2], and
    neither is being evaluated. *)
Definition latch_state (c : devclass) (l i1 i2 : nat) (in1 in2 : list callable)
    (q1 q2 : pyval) (w : world) : Prop :=
  i1 <> i2 /\
  exists dl d1 d2,
    heap w !! l = Some dl /\ cls dl = BoolSRFF /\
    IC1 dl = Some i1 /\ IC2 dl = Some i2 /\
    heap w !! i1 = Some d1 /\ cls d1 = c /\ _input d1 = in1 /\
    ingetvalue d1 = false /\ lastget d1 = q1 /\
    heap w !! i2 = Some d2 /\ cls d2 = c /\ _input d2 = in2 /\
    ingetvalue d2 = false /\ lastget d2 = q2.

(** The same, with R bound to the constant [r] and S to the constant [s]. *)
Definition latch_at (c : devclass) (l i1 i2 : nat) (r s q1 q2 : pyval)
    (w : world) : Prop :=
  latch_state c l i1 i2 [CLambda r; CDev i2] [CLambda s; CDev i1] q1 q2 w.

(** A series of calls of the accessors [Q] and [Q_] of [l]. *)
Fixpoint calls (ev : callable -> M pyval) (l : nat) (ms : list method) : M (list pyval) :=
  match ms with
  | [] => ret []
  | m :: rest =>
      let* v := call_callable ev (CBound l m) in
      let* vs := calls ev l rest in
      ret (v :: vs)
  end.

(** What the accessor [m] shows of a latch whose output is [q]. *)
Definition shows (q : bool) (m : method) : pyval :=
  match m with
  | MQ => VBool q
  | MQ_ => VBool (negb q)
  end.

(** A device as [_BoolDevice.__init__] leaves it. *)
Definition initialised (n : nat) (namedinputs : list string) (d : device) : device :=
  set_lastget VNone
    (set_ingetvalue false
       (set_indict (initial_indict namedinputs)
          (set_enable (CLambda (VBool true))
             (set_input (map Eval (repeat (OVal VNone) n)) d)))).

(** The call [c(namedinputs=..., gateclass=...)] of a class; the
    composites and [TestDevice] replace [namedinputs] by their own. *)
Definition construct (c : devclass) (namedinputs : list string)
    (gateclass : option devclass) : M nat :=
  match c with
  | BoolSRFF => new_BoolSRFF gateclass
  | BoolJKFF => new_BoolJKFF
  | TestDevice => new_TestDevice
  | g => new_gate g namedinputs
  end.

(** The named inputs an object of class [c] declares. *)
Definition declared (c : devclass) (namedinputs : list string) : list string :=
  match c with
  | BoolSRFF => ["R"; "S"]%string
  | BoolJKFF => ["J"; "K"; "CLK"]%string
  | TestDevice => ["in1"; "in2"]%string
  | _ => namedinputs
  end.

(** A computation that only allocates: the objects that existed are
    untouched. *)
Definition only_allocates (w w' : world) : Prop :=
  next w <= next w' /\
  forall j : nat, j < next w -> heap w' !! j = heap w !! j.

(** The number of sources an assignment to [In] provides. *)
Definition provided (val : pyarg) : nat :=
  match val with
  | One _ => 1
  | Seq l => length l
  end.

(** ** Stores used as examples *)

(** The store a program leaves when run from the empty store. *)
Definition world_of {A} (m : M A) : world :=
  match final_world (m empty_world) with
  | Some w => w
  | None => empty_world
  end.

(** A latch of NOR gates, just built: the latch is object 0, its gates
    are objects 1 and 2. *)
Definition nor_latch_built : world := world_of (new_BoolSRFF None).

(** The same latch after S was set to true and R to false. *)
Definition nor_latch_set : world :=
  world_of (let* l := new_BoolSRFF None in
            SetInput (run 0) l "S" (OVal (VBool true)) >>
            SetInput (run 0) l "R" (OVal (VBool false))).

(** The same latch once [Q] was called and the outputs have settled. *)
Definition nor_latch_settled : world :=
  world_of (let* l := new_BoolSRFF None in
            SetInput (run 0) l "S" (OVal (VBool true)) >>
            SetInput (run 0) l "R" (OVal (VBool false)) >>
            Q (run 3) l).

(** One gate of each class: NOT is object 0, AND 1, NOR 2, NAND 3. *)
Definition four_gates : world :=
  world_of (new_gate BoolNOT [] >> new_gate BoolAND [] >>
            new_gate BoolNOR [] >> new_gate BoolNAND []).

(** A latch of NAND gates taken through set, two readings of each
    output, then both inputs false, and two more readings. *)
Definition nand_latch_hold : M (list pyval * list pyval) :=
  let* l := new_BoolSRFF (Some BoolNAND) in
  SetInput (run 0) l "S" (OVal (VBool true)) >>
  SetInput (run 0) l "R" (OVal (VBool false)) >>
  let* before := calls (run 3) l [MQ; MQ_; MQ; MQ_] in
  SetInput (run 0) l "R" (OVal (VBool false)) >>
  SetInput (run 0) l "S" (OVal (VBool false)) >>
  let* after := calls (run 3) l [MQ; MQ_; MQ; MQ_] in
  ret (before, after).

(** An AND gate given a single source. *)
Definition and_gate_one_source : M device :=
  let* g := new_gate BoolAND [] in
  In_set g (One (OVal (VBool true))) >>
  getobj g.

(** A NOT gate with a false input, disabled, then called. *)
Definition disabled_not_gate : M pyval :=
  let* g := new_gate BoolNOT [] in
  In_set g (One (OVal (VBool false))) >>
  Enable_set g (OVal (VBool false)) >>
  run 2 (CDev g).

(** The inputs of the two gating gates of a JK flip-flop. *)
Definition gating_inputs (ff : nat) : M (list callable * list callable) :=
  let* d := getobj ff in
  let* icj := subdevice (ICJ d) in
  let* ick := subdevice (ICK d) in
  let* dj := getobj icj in
  let* dk := getobj ick in
  ret (_input dj, _input dk).

(** A JK flip-flop whose J, K and CLK are set to true one after the
    other; the gating inputs are read before and after the last. *)
Definition jk_all_bound
    : M ((list callable * list callable) * (list callable * list callable)) :=
  let* ff := new_BoolJKFF in
  SetInput (run 1) ff "J" (OVal (VBool true)) >>
  SetInput (run 1) ff "K" (OVal (VBool true)) >>
  let* before := gating_inputs ff in
  SetInput (run 1) ff "CLK" (OVal (VBool true)) >>
  let* after := gating_inputs ff in
  ret (before, after).

(** ** Vocabulary of the further properties *)

(** [w'] has allocated and printed nothing more than [w]. *)
Definition quiet (w w' : world) : Prop :=
  next w' = next w /\ stdout w' = stdout w.

(** A computation that neither allocates nor prints, however it ends. *)
Definition stays_quiet {A} (m : M A) : Prop :=
  forall w : world,
    match m w with
    | Returns _ w' => quiet w w'
    | Raises _ w' => quiet w w'
    | TooDeep => True
    end.

(** A gate wired to itself on both inputs. *)
Definition self_fed (g : nat) (w : world) : Prop :=
  exists d : device,
    heap w !! g = Some d /\ cls d = BoolNOR /\ _input d = [CDev g; CDev g]
    /\ ingetvalue d = false /\ asserted (lastget d) = false.

(** The value Python's [a and b] and [a or b] have. *)
Definition py_and (a b : pyval) : pyval := if truthy a then b else a.
Definition py_or (a b : pyval) : pyval := if truthy a then a else b.

(** Python's [v is None]. *)
Definition is_None (v : pyval) : bool :=
  match v with
  | VNone => true
  | _ => false
  end.

(** A NOT gate whose inputs were set to the empty list. *)
Definition not_gate_unwired : world :=
  world_of (let* g := new_gate BoolNOT [] in In_set g (Seq [])).

(** A NOR gate with itself on both inputs. *)
Definition nor_gate_self_fed : world :=
  world_of (let* g := new_gate BoolNOR [] in
            In_set g (Seq [OCall (CDev g); OCall (CDev g)])).

(** A latch of NAND gates, a [TestDevice] and a JK flip-flop, just built. *)
Definition nand_latch_built : world := world_of (new_BoolSRFF (Some BoolNAND)).
Definition test_device_built : world := world_of new_TestDevice.
Definition jk_built : world := world_of new_BoolJKFF.

(** ** Loops of two gates *)

(** A source that stands outside the loop of the gates [i1] and [i2]:
    whatever the traps hold, a call of it within depth [k] or more
    returns, runs at most [e] value functions and leaves the two gates
    as they are. *)
Definition independent (c : callable) (i1 i2 k e : nat) (w : world) : Prop :=
  forall (w' : world) (m : nat),
    same_wiring w w' -> k <= m ->
    exists (v : pyval) (w'' : world),
      run m c w' = Returns v w''
      /\ heap w'' !! i1 = heap w' !! i1
      /\ heap w'' !! i2 = heap w' !! i2
      /\ length (evals w'') <= e + length (evals w').

(** The composite [l] has the two gates [i1] and [i2] as [IC1] and [IC2],
    wired in a loop as both composites wire them: each gate has a source
    of its own first and the other gate second, and the two sources
    stand outside the loop. *)
Definition loop_wired (l i1 i2 : nat) (cr cs : callable) (k e : nat)
    (w : world) : Prop :=
  i1 <> i2 /\
  (exists dl d1 d2 p1 p2,
      heap w !! l = Some dl /\ (cls dl = BoolSRFF \/ cls dl = BoolJKFF) /\
      IC1 dl = Some i1 /\ IC2 dl = Some i2 /\
      heap w !! i1 = Some d1 /\ shape_of (cls d1) = Some p1 /\
      _input d1 = [cr; CDev i2] /\
      heap w !! i2 = Some d2 /\ shape_of (cls d2) = Some p2 /\
      _input d2 = [cs; CDev i1]) /\
  independent cr i1 i2 k e w /\ independent cs i1 i2 k e w.

(** Two NOR gates each wired to the other on both inputs; [a] is not
    being evaluated and neither cached value is asserted-true. *)
Definition cross_fed (a b : nat) (w : world) : Prop :=
  a <> b /\
  exists da db : device,
    heap w !! a = Some da /\ cls da = BoolNOR /\ _input da = [CDev b; CDev b]
    /\ ingetvalue da = false /\ asserted (lastget da) = false
    /\ heap w !! b = Some db /\ cls db = BoolNOR /\ _input db = [CDev a; CDev a]
    /\ asserted (lastget db) = false.

(** A latch of NOR gates with R bound to its own [IC2] and S to its own
    [IC1]: [latch.SetInput('R', latch.IC2); latch.SetInput('S', latch.IC1)]. *)
Definition nor_latch_cross_fed : world :=
  world_of (let* l := new_BoolSRFF None in
            let* d := getobj l in
            let* ic1 := subdevice (IC1 d) in
            let* ic2 := subdevice (IC2 d) in
            SetInput (run 0) l "R" (OCall (CDev ic2)) >>
            SetInput (run 0) l "S" (OCall (CDev ic1))).

(** The call [c()] exceeds every bound on the call depth. *)
Definition never_returns (c : callable) (w : world) : Prop :=
  forall n : nat, run n c w = TooDeep.

(** The sources an assignment to [In] provides. *)
Definition sources_given (val : pyarg) : list callable :=
  match val with
  | One o => [Eval o]
  | Seq l => map Eval l
  end.

(** * Properties *)

(** ** The store *)

Lemma heap_store_eq (i : nat) (d : device) (w : world) :
  heap (store i d w) !! i = Some d.
Proof. unfold store, set_heap; simpl. apply lookup_insert_eq. Qed.

Lemma heap_store_ne (i j : nat) (d : device) (w : world) :
  i <> j -> heap (store i d w) !! j = heap w !! j.
Proof. intros H. unfold store, set_heap; simpl. by apply lookup_insert_ne. Qed.

Lemma store_store (i : nat) (d d' : device) (w : world) :
  store i d (store i d' w) = store i d w.
Proof. unfold store, set_heap; simpl. by rewrite insert_insert_eq. Qed.

Lemma getobj_eq (i : nat) (d : device) (w : world) :
  heap w !! i = Some d -> getobj i w = Returns d w.
Proof. intros H. unfold getobj. by rewrite H. Qed.

Lemma modify_eq (i : nat) (f : device -> device) (d : device) (w : world) :
  heap w !! i = Some d -> modify i f w = Returns tt (store i (f d) w).
Proof. intros H. unfold modify. by rewrite H. Qed.

(** ** The input resolver on one source *)

Lemma resolve_cases (v : pyval) :
  resolve v = VNone \/ resolve v = VBool true \/ resolve v = VBool false.
Proof.
  unfold resolve. destruct (py_eq v (VBool true)); [auto|].
  destruct (py_eq v (VBool false)); auto.
Qed.

Lemma inputState_one (ev : callable -> M pyval) (c : callable) (w w' : world) (v : pyval) :
  ev c w = Returns v w' ->
  _inputState ev (One (OCall c)) w = Returns (resolve v) w'.
Proof.
  intros H. unfold _inputState, bind. simpl. unfold bind. rewrite H. simpl.
  unfold resolve, count, py_eq.
  destruct v as [|[|]|z]; simpl; try reflexivity.
  destruct (Z.eqb_spec z 1), (Z.eqb_spec z 0); simpl; try reflexivity; lia.
Qed.

Lemma inputState_one_raises (ev : callable -> M pyval) (c : callable) (w w' : world) (e : pyerr) :
  ev c w = Raises e w' ->
  _inputState ev (One (OCall c)) w = Raises e w'.
Proof.
  intros H. unfold _inputState, bind. simpl. unfold bind. by rewrite H.
Qed.

Lemma inputState_one_deep (ev : callable -> M pyval) (c : callable) (w : world) :
  ev c w = TooDeep ->
  _inputState ev (One (OCall c)) w = TooDeep.
Proof.
  intros H. unfold _inputState, bind. simpl. unfold bind. by rewrite H.
Qed.

Lemma BoolAND_loop_scan (ev : callable -> M pyval) (l : list callable) (w : world) :
  BoolAND_loop ev l w = scan ev (mkShape false (VBool false) (VBool true)) l w.
Proof.
  revert w. induction l as [|v rest IH]; intros w; [reflexivity|].
  cbn [BoolAND_loop scan]. unfold bind.
  destruct (_inputState ev (One (OCall v)) w) as [x w1|e w1|]; [|reflexivity..].
  cbn [stop early]. destruct (truthy x); simpl; [reflexivity || apply IH | reflexivity || apply IH].
Qed.

Lemma BoolNOR_loop_scan (ev : callable -> M pyval) (l : list callable) (w : world) :
  BoolNOR_loop ev l w = scan ev (mkShape true (VBool false) (VBool true)) l w.
Proof.
  revert w. induction l as [|v rest IH]; intros w; [reflexivity|].
  cbn [BoolNOR_loop scan]. unfold bind.
  destruct (_inputState ev (One (OCall v)) w) as [x w1|e w1|]; [|reflexivity..].
  cbn [stop early]. destruct (truthy x); simpl; [reflexivity || apply IH | reflexivity || apply IH].
Qed.

Lemma BoolNAND_loop_scan (ev : callable -> M pyval) (l : list callable) (w : world) :
  BoolNAND_loop ev l w = scan ev (mkShape false (VBool true) (VBool false)) l w.
Proof.
  revert w. induction l as [|v rest IH]; intros w; [reflexivity|].
  cbn [BoolNAND_loop scan]. unfold bind.
  destruct (_inputState ev (One (OCall v)) w) as [x w1|e w1|]; [|reflexivity..].
  cbn [stop early]. destruct (truthy x); simpl; [reflexivity || apply IH | reflexivity || apply IH].
Qed.

(** ** Evaluation rewires nothing *)

Lemma same_wiring_refl (w : world) : same_wiring w w.
Proof. intros j. reflexivity. Qed.

Lemma same_wiring_trans (w1 w2 w3 : world) :
  same_wiring w1 w2 -> same_wiring w2 w3 -> same_wiring w1 w3.
Proof. intros H12 H23 j. by rewrite H23, H12. Qed.

Lemma same_wiring_store (i : nat) (d d' : device) (w : world) :
  heap w !! i = Some d -> wiring d' = wiring d -> same_wiring w (store i d' w).
Proof.
  intros Hd Hw j. destruct (decide (i = j)) as [<-|Hne].
  - rewrite heap_store_eq, Hd. simpl. by rewrite Hw.
  - by rewrite heap_store_ne.
Qed.

Lemma same_wiring_lookup (w w' : world) (i : nat) (d : device) :
  same_wiring w w' -> heap w !! i = Some d ->
  exists d', heap w' !! i = Some d' /\ wiring d' = wiring d.
Proof.
  intros H Hd. specialize (H i). rewrite Hd in H.
  destruct (heap w' !! i) as [d'|]; simpl in H; [|discriminate].
  exists d'. split; [reflexivity|]. congruence.
Qed.

Section Keeps.

Lemma keeps_ret {A} (a : A) : keeps_wiring (ret a).
Proof. intros w. apply same_wiring_refl. Qed.

Lemma keeps_raise {A} (e : pyerr) : keeps_wiring (@raise A e).
Proof. intros w. apply same_wiring_refl. Qed.

Lemma keeps_bind {A B} (m : M A) (k : A -> M B) :
  keeps_wiring m -> (forall a, keeps_wiring (k a)) -> keeps_wiring (bind m k).
Proof.
  intros Hm Hk w. unfold bind. specialize (Hm w).
  destruct (m w) as [a w1|e w1|]; [|exact Hm|exact I].
  specialize (Hk a w1).
  destruct (k a w1) as [b w2|e w2|]; [| |exact I];
    eapply same_wiring_trans; eassumption.
Qed.

Lemma keeps_getobj (self : nat) : keeps_wiring (getobj self).
Proof.
  intros w. unfold getobj. destruct (heap w !! self); apply same_wiring_refl.
Qed.

Lemma keeps_modify (self : nat) (f : device -> device) :
  (forall d, wiring (f d) = wiring d) -> keeps_wiring (modify self f).
Proof.
  intros Hf w. unfold modify. destruct (heap w !! self) as [d|] eqn:Hd.
  - by apply same_wiring_store with d.
  - apply same_wiring_refl.
Qed.

Lemma keeps_tick (self : nat) : keeps_wiring (tick self).
Proof. intros w j. reflexivity. Qed.

Lemma keeps_subdevice (o : option nat) : keeps_wiring (subdevice o).
Proof. destruct o; [apply keeps_ret | apply keeps_raise]. Qed.

End Keeps.

Ltac keeps :=
  repeat match goal with
    | |- keeps_wiring (ret _) => apply keeps_ret
    | |- keeps_wiring (raise _) => apply keeps_raise
    | |- keeps_wiring (getobj _) => apply keeps_getobj
    | |- keeps_wiring (tick _) => apply keeps_tick
    | |- keeps_wiring (subdevice _) => apply keeps_subdevice
    | |- keeps_wiring (modify _ _) => apply keeps_modify; intros; reflexivity
    | |- keeps_wiring (bind _ _) => apply keeps_bind; [|intro]
    | |- keeps_wiring (if ?b then _ else _) => destruct b
    | |- keeps_wiring (match ?x with _ => _ end) => destruct x
    | H : forall c, keeps_wiring (?ev c) |- keeps_wiring (?ev _) => apply H
    | H : keeps_wiring ?m |- keeps_wiring ?m => exact H
    end.

Lemma keeps_recursiontrap (handler : nat -> M pyval) (self : nat) :
  (forall i, keeps_wiring (handler i)) -> keeps_wiring (recursiontrap handler self).
Proof. intros Hh. unfold recursiontrap. keeps. Qed.

Section KeepsDevices.
Variable ev : callable -> M pyval.
Hypothesis Hev : forall c, keeps_wiring (ev c).

Lemma keeps_call_all (l : list pyobj) : keeps_wiring (call_all ev l).
Proof.
  induction l as [|o l IH]; [apply keeps_ret|].
  apply keeps_bind; [destruct o; simpl; keeps|]. intros x. keeps.
Qed.

Lemma keeps_inputState (value : pyarg) : keeps_wiring (_inputState ev value).
Proof. unfold _inputState. keeps. all: apply keeps_call_all. Qed.

Lemma keeps_AND_loop l : keeps_wiring (BoolAND_loop ev l).
Proof. induction l; [apply keeps_ret|]. apply keeps_bind; [apply keeps_inputState|]. intros x. keeps. Qed.
Lemma keeps_NOR_loop l : keeps_wiring (BoolNOR_loop ev l).
Proof. induction l; [apply keeps_ret|]. apply keeps_bind; [apply keeps_inputState|]. intros x. keeps. Qed.
Lemma keeps_NAND_loop l : keeps_wiring (BoolNAND_loop ev l).
Proof. induction l; [apply keeps_ret|]. apply keeps_bind; [apply keeps_inputState|]. intros x. keeps. Qed.

Lemma keeps_getvalue (self : nat) : keeps_wiring (_getvalue ev self).
Proof.
  unfold _getvalue. keeps; apply keeps_recursiontrap; intros i;
    unfold BoolNOT_getvalue, BoolAND_getvalue, BoolNOR_getvalue, BoolNAND_getvalue;
    keeps;
    first [ apply keeps_inputState | apply keeps_AND_loop
          | apply keeps_NOR_loop | apply keeps_NAND_loop ].
Qed.

Lemma keeps_call_callable (c : callable) : keeps_wiring (call_callable ev c).
Proof.
  destruct c as [v|d|d [|]]; simpl; unfold __call__, Q, Q_; keeps;
    apply keeps_getvalue.
Qed.
End KeepsDevices.

Lemma run_keeps_wiring (n : nat) (c : callable) : keeps_wiring (run n c).
Proof.
  revert c. induction n as [|n IH]; intros c.
  - intros w. exact I.
  - simpl. by apply keeps_call_callable.
Qed.

(** ** The recursion trap *)

Lemma trap_reentrant (handler : nat -> M pyval) (self : nat) (w : world) (d : device) :
  heap w !! self = Some d -> ingetvalue d = true ->
  recursiontrap handler self w
  = Returns (lastget d) (store self (set_ingetvalue false d) w).
Proof.
  intros Hd Hin. unfold recursiontrap, bind.
  rewrite (getobj_eq _ _ _ Hd), Hin. simpl.
  rewrite (modify_eq _ _ _ _ Hd).
  rewrite (getobj_eq _ _ _ (heap_store_eq _ _ _)). reflexivity.
Qed.

Lemma trap_fresh (handler : nat -> M pyval) (self : nat) (w w1 : world)
    (d d1 : device) (r : pyval) :
  heap w !! self = Some d -> ingetvalue d = false ->
  handler self (entered self d w) = Returns r w1 ->
  heap w1 !! self = Some d1 ->
  recursiontrap handler self w
  = Returns r (store self (set_ingetvalue false (set_lastget r d1)) w1).
Proof.
  intros Hd Hin Hh Hd1. unfold recursiontrap, bind.
  rewrite (getobj_eq _ _ _ Hd), Hin. simpl.
  rewrite (modify_eq _ _ _ _ Hd). unfold tick.
  change (note self _) with (entered self d w).
  rewrite Hh.
  rewrite (modify_eq _ _ _ _ Hd1).
  rewrite (modify_eq _ _ _ _ (heap_store_eq _ _ _)).
  rewrite (getobj_eq _ _ _ (heap_store_eq _ _ _)).
  rewrite store_store. reflexivity.
Qed.

Lemma trap_too_deep (handler : nat -> M pyval) (self : nat) (w : world) (d : device) :
  heap w !! self = Some d -> ingetvalue d = false ->
  handler self (entered self d w) = TooDeep ->
  recursiontrap handler self w = TooDeep.
Proof.
  intros Hd Hin Hh. unfold recursiontrap, bind.
  rewrite (getobj_eq _ _ _ Hd), Hin. simpl.
  rewrite (modify_eq _ _ _ _ Hd). unfold tick.
  change (note self _) with (entered self d w).
  by rewrite Hh.
Qed.


(** ** Calls of gates, and two gates in a loop *)

Lemma run_lambda (n : nat) (v : pyval) (w : world) :
  run (S n) (CLambda v) w = Returns v w.
Proof. reflexivity. Qed.

Lemma run_dev (n : nat) (i : nat) (w : world) :
  run (S n) (CDev i) w = __call__ (run n) i w.
Proof. reflexivity. Qed.

Lemma object_truth_true (c : callable) : object_truth c = true.
Proof. by destruct c. Qed.

Lemma scan_nil (ev : callable -> M pyval) (p : scan_shape) (w : world) :
  scan ev p [] w = Returns (final p) w.
Proof. reflexivity. Qed.

Lemma scan_cons (ev : callable -> M pyval) (p : scan_shape) (v : callable)
    (rest : list callable) (w w' : world) (x : pyval) :
  ev v w = Returns x w' ->
  scan ev p (v :: rest) w
  = if Bool.eqb (truthy (resolve x)) (stop p) then Returns (early p) w'
    else scan ev p rest w'.
Proof.
  intros H. cbn [scan]. unfold bind.
  rewrite (inputState_one _ _ _ _ _ H).
  by destruct (Bool.eqb (truthy (resolve x)) (stop p)).
Qed.

Lemma heap_entered_eq (i : nat) (d : device) (w : world) :
  heap (entered i d w) !! i = Some (set_ingetvalue true d).
Proof. unfold entered, note; simpl. apply heap_store_eq. Qed.

Lemma heap_entered_ne (i j : nat) (d : device) (w : world) :
  i <> j -> heap (entered i d w) !! j = heap w !! j.
Proof. intros H. unfold entered, note; simpl. by apply heap_store_ne. Qed.

(** A call of a gate whose mark is set. *)
Lemma gate_reentrant (ev : callable -> M pyval) (i : nat) (w : world)
    (d : device) (p : scan_shape) :
  heap w !! i = Some d -> shape_of (cls d) = Some p -> ingetvalue d = true ->
  __call__ ev i w = Returns (lastget d) (store i (set_ingetvalue false d) w).
Proof.
  intros Hd Hp Hin. unfold __call__, bind.
  rewrite (getobj_eq _ _ _ Hd), object_truth_true.
  unfold _getvalue, bind. rewrite (getobj_eq _ _ _ Hd).
  destruct (cls d); try discriminate; by apply trap_reentrant.
Qed.

(** A call of a multi-input gate whose mark is clear. *)
Lemma gate_fresh (ev : callable -> M pyval) (i : nat) (w w1 : world)
    (d d1 : device) (p : scan_shape) (r : pyval) :
  heap w !! i = Some d -> shape_of (cls d) = Some p -> ingetvalue d = false ->
  scan ev p (_input d) (entered i d w) = Returns r w1 ->
  heap w1 !! i = Some d1 ->
  __call__ ev i w = Returns r (store i (set_ingetvalue false (set_lastget r d1)) w1).
Proof.
  intros Hd Hp Hin Hs Hd1. unfold __call__, bind.
  rewrite (getobj_eq _ _ _ Hd), object_truth_true.
  unfold _getvalue, bind. rewrite (getobj_eq _ _ _ Hd).
  destruct (cls d); try discriminate; injection Hp as <-;
    apply trap_fresh with d; try assumption;
    unfold BoolAND_getvalue, BoolNOR_getvalue, BoolNAND_getvalue, bind;
    rewrite (getobj_eq _ _ _ (heap_entered_eq _ _ _)); simpl _input;
    first [ rewrite BoolAND_loop_scan | rewrite BoolNOR_loop_scan
          | rewrite BoolNAND_loop_scan ]; exact Hs.
Qed.

Lemma evals_store i d w : evals (store i d w) = evals w.
Proof. reflexivity. Qed.
Lemma evals_entered i d w : evals (entered i d w) = i :: evals w.
Proof. reflexivity. Qed.

Lemma heap_bump (w : world) : heap (bump w) = heap w.
Proof. reflexivity. Qed.
Lemma next_bump (w : world) : next (bump w) = S (next w).
Proof. reflexivity. Qed.
Lemma next_store (i : nat) (d : device) (w : world) : next (store i d w) = next w.
Proof. reflexivity. Qed.

Ltac lookups :=
  repeat first
    [ rewrite heap_store_eq
    | rewrite heap_entered_eq
    | rewrite heap_bump
    | rewrite next_store
    | rewrite next_bump
    | rewrite heap_store_ne by first [congruence | lia]
    | rewrite heap_entered_ne by first [congruence | lia] ].


Lemma clear_set_lastget (v : pyval) (b : bool) (d : device) :
  ingetvalue d = false ->
  set_ingetvalue false (set_lastget v (set_ingetvalue b d)) = set_lastget v d.
Proof. intros H. destruct d; simpl in *; subst. reflexivity. Qed.

Section Step.
Variables i1 i2 : nat.
Hypothesis Hne : i1 <> i2.

(** The gate [i2], its mark clear, called while [i1] is being
    evaluated: [i1] answers with its cached value. *)
Lemma inner_step (w : world) (d1 d2 : device) (p1 p2 : scan_shape)
    (s : pyval) (n : nat) :
  heap w !! i1 = Some d1 -> shape_of (cls d1) = Some p1 ->
  ingetvalue d1 = true ->
  heap w !! i2 = Some d2 -> shape_of (cls d2) = Some p2 ->
  ingetvalue d2 = false ->
  _input d2 = [CLambda s; CDev i1] ->
  exists w', run (S (S n)) (CDev i2) w
             = Returns (gate_out p2 s (lastget d1)) w'
    /\ heap w' !! i2 = Some (set_lastget (gate_out p2 s (lastget d1)) d2)
    /\ (exists b, heap w' !! i1 = Some (set_ingetvalue b d1))
    /\ (forall j, j <> i1 -> j <> i2 -> heap w' !! j = heap w !! j).
Proof using Hne.
  intros Hd1 Hp1 Hin1 Hd2 Hp2 Hin2 Hwire. rewrite run_dev.
  assert (Hd1' : heap (entered i2 d2 w) !! i1 = Some d1) by (by lookups).
  pose proof (gate_reentrant (run n) _ _ _ _ Hd1' Hp1 Hin1) as Hre.
  unfold gate_out, stops.
  destruct (Bool.eqb (truthy (resolve s)) (stop p2)) eqn:Es.
  - eexists. split; [|split; [|split]].
    + eapply (gate_fresh _ _ _ _ _ _ _ _ Hd2 Hp2 Hin2).
      * rewrite Hwire, (scan_cons _ _ _ _ _ _ _ (run_lambda n s _)), Es. reflexivity.
      * apply heap_entered_eq.
    + lookups. by rewrite clear_set_lastget.
    + exists true. lookups. rewrite Hd1. f_equal. destruct d1; simpl in *; by subst.
    + intros j Hj1 Hj2. by lookups.
  - eexists. split; [|split; [|split]].
    + eapply (gate_fresh _ _ _ _ _ _ _ _ Hd2 Hp2 Hin2).
      * rewrite Hwire, (scan_cons _ _ _ _ _ _ _ (run_lambda n s _)), Es.
        rewrite (scan_cons (run (S n)) _ (CDev i1) _ _ _ _ Hre).
        destruct (Bool.eqb (truthy (resolve (lastget d1))) (stop p2));
          [|rewrite scan_nil]; reflexivity.
      * by lookups.
    + lookups. by rewrite clear_set_lastget.
    + exists false. by lookups.
    + intros j Hj1 Hj2. by lookups.
Qed.

(** The gate [i1] called from outside, both marks clear. *)
Lemma loop_step (w : world) (d1 d2 : device) (p1 p2 : scan_shape)
    (r s : pyval) (n : nat) :
  heap w !! i1 = Some d1 -> shape_of (cls d1) = Some p1 ->
  ingetvalue d1 = false -> _input d1 = [CLambda r; CDev i2] ->
  heap w !! i2 = Some d2 -> shape_of (cls d2) = Some p2 ->
  ingetvalue d2 = false -> _input d2 = [CLambda s; CDev i1] ->
  let v2 := gate_out p2 s (lastget d1) in
  let v := gate_out p1 r v2 in
  exists w', run (S (S (S n))) (CDev i1) w = Returns v w'
    /\ heap w' !! i1 = Some (set_lastget v d1)
    /\ heap w' !! i2 = Some (if stops p1 r then d2 else set_lastget v2 d2)
    /\ (forall j, j <> i1 -> j <> i2 -> heap w' !! j = heap w !! j).
Proof using Hne.
  intros Hd1 Hp1 Hin1 Hw1 Hd2 Hp2 Hin2 Hw2 v2 v. rewrite run_dev.
  subst v. unfold gate_out at 1 2.
  destruct (stops p1 r) eqn:Er.
  - eexists. split; [|split; [|split]].
    + eapply (gate_fresh _ _ _ _ _ _ _ _ Hd1 Hp1 Hin1).
      * rewrite Hw1, (scan_cons _ _ _ _ _ _ _ (run_lambda (S n) r _)).
        fold (stops p1 r). rewrite Er. reflexivity.
      * apply heap_entered_eq.
    + lookups. by rewrite clear_set_lastget.
    + by lookups.
    + intros j Hj1 Hj2. by lookups.
  - destruct (inner_step (entered i1 d1 w) (set_ingetvalue true d1) d2 p1 p2 s n)
      as (w2 & Hrun & Hi2 & [b Hi1] & Hoth); try assumption; try reflexivity.
    { apply heap_entered_eq. }
    { by lookups. }
    change (lastget (set_ingetvalue true d1)) with (lastget d1) in *.
    fold v2 in Hrun, Hi2.
    eexists. split; [|split; [|split]].
    + eapply (gate_fresh _ _ _ _ _ _ _ _ Hd1 Hp1 Hin1).
      * rewrite Hw1, (scan_cons _ _ _ _ _ _ _ (run_lambda (S n) r _)).
        fold (stops p1 r). rewrite Er.
        rewrite (scan_cons _ _ _ _ _ _ _ Hrun). fold (stops p1 v2).
        destruct (stops p1 v2); [|rewrite scan_nil]; reflexivity.
      * exact Hi1.
    + lookups. f_equal. clear -Hin1. destruct d1; simpl in *; subst; reflexivity.
    + lookups. exact Hi2.
    + intros j Hj1 Hj2. lookups. rewrite Hoth by assumption. by lookups.
Qed.
End Step.

Lemma Q_latch (ev : callable -> M pyval) (l i1 : nat) (dl : device) (w : world) :
  heap w !! l = Some dl -> cls dl = BoolSRFF -> IC1 dl = Some i1 ->
  Q ev l w = ev (CDev i1) w.
Proof.
  intros Hl Hc H1. unfold Q, bind. rewrite (getobj_eq _ _ _ Hl), Hc.
  unfold _getvalue, bind. rewrite (getobj_eq _ _ _ Hl), Hc, H1. reflexivity.
Qed.

Lemma Q__latch (ev : callable -> M pyval) (l i2 : nat) (dl : device) (w : world) :
  heap w !! l = Some dl -> cls dl = BoolSRFF -> IC2 dl = Some i2 ->
  Q_ ev l w = ev (CDev i2) w.
Proof.
  intros Hl Hc H2. unfold Q_, bind. rewrite (getobj_eq _ _ _ Hl), Hc, H2. reflexivity.
Qed.

Lemma In_set_seq (i : nat) (l : list pyobj) (d : device) (w : world) :
  heap w !! i = Some d ->
  In_set i (Seq l) w = Returns tt (store i (set_input (map Eval l) d) w).
Proof. intros H. by apply modify_eq. Qed.

Lemma base_SetInput_eq (l : nat) (name : string) (ref : pyobj) (dl : device) (w : world) :
  heap w !! l = Some dl ->
  _BoolDevice_SetInput l name ref w
  = Returns tt (store l (set_indict (<[name := Eval ref]> (_indict dl)) dl) w).
Proof.
  intros H. unfold _BoolDevice_SetInput, bind.
  rewrite (getobj_eq _ _ _ H). by apply modify_eq.
Qed.

Lemma SetInput_R (ev : callable -> M pyval) (l i1 i2 : nat) (ref : pyobj)
    (dl d1 : device) (w : world) :
  heap w !! l = Some dl -> cls dl = BoolSRFF ->
  IC1 dl = Some i1 -> IC2 dl = Some i2 ->
  heap w !! i1 = Some d1 -> l <> i1 ->
  SetInput ev l "R" ref w
  = Returns tt (store i1 (set_input [Eval ref; CDev i2] d1)
                  (store l (set_indict (<["R"%string := Eval ref]> (_indict dl)) dl) w)).
Proof.
  intros Hl Hc H1 H2 Hd1 Hne. unfold SetInput, bind.
  rewrite (getobj_eq _ _ _ Hl), Hc. unfold BoolSRFF_SetInput, bind.
  rewrite (base_SetInput_eq _ _ _ _ _ Hl).
  rewrite (getobj_eq _ _ _ (heap_store_eq _ _ _)).
  simpl. rewrite H1, H2. simpl.
  apply modify_eq. by rewrite heap_store_ne.
Qed.

Lemma SetInput_S (ev : callable -> M pyval) (l i1 i2 : nat) (ref : pyobj)
    (dl d2 : device) (w : world) :
  heap w !! l = Some dl -> cls dl = BoolSRFF ->
  IC1 dl = Some i1 -> IC2 dl = Some i2 ->
  heap w !! i2 = Some d2 -> l <> i2 ->
  SetInput ev l "S" ref w
  = Returns tt (store i2 (set_input [Eval ref; CDev i1] d2)
                  (store l (set_indict (<["S"%string := Eval ref]> (_indict dl)) dl) w)).
Proof.
  intros Hl Hc H1 H2 Hd2 Hne. unfold SetInput, bind.
  rewrite (getobj_eq _ _ _ Hl), Hc. unfold BoolSRFF_SetInput, bind.
  rewrite (base_SetInput_eq _ _ _ _ _ Hl).
  rewrite (getobj_eq _ _ _ (heap_store_eq _ _ _)).
  simpl. rewrite H1, H2. simpl.
  apply modify_eq. by rewrite heap_store_ne.
Qed.

Lemma latch_distinct (c : devclass) (p : scan_shape) (l i1 i2 : nat)
    (in1 in2 : list callable) (q1 q2 : pyval) (w : world) :
  shape_of c = Some p -> latch_state c l i1 i2 in1 in2 q1 q2 w ->
  l <> i1 /\ l <> i2.
Proof.
  intros Hp [_ (dl & d1 & d2 & Hl & Hc & _ & _ & Hd1 & Hc1 & _ & _ & _ & Hd2 & Hc2 & _)].
  split; intros E; subst l.
  - assert (dl = d1) by congruence. subst d1. rewrite <- Hc1, Hc in Hp. discriminate.
  - assert (dl = d2) by congruence. subst d2. rewrite <- Hc2, Hc in Hp. discriminate.
Qed.

Lemma latch_SetInput_R (ev : callable -> M pyval) (c : devclass) (p : scan_shape)
    (l i1 i2 : nat) (in1 in2 : list callable) (q1 q2 : pyval) (ref : pyobj) (w : world) :
  shape_of c = Some p -> latch_state c l i1 i2 in1 in2 q1 q2 w ->
  exists w', SetInput ev l "R" ref w = Returns tt w'
             /\ latch_state c l i1 i2 [Eval ref; CDev i2] in2 q1 q2 w'.
Proof.
  intros Hp H. destruct (latch_distinct _ _ _ _ _ _ _ _ _ _ Hp H) as [Hl1 Hl2].
  destruct H as [Hne (dl & d1 & d2 & Hl & Hc & H1 & H2 & Hd1 & Hc1 & Hi1 & Hm1 & Hq1
                       & Hd2 & Hc2 & Hi2 & Hm2 & Hq2)].
  eexists. split; [by eapply SetInput_R|].
  split; [assumption|]. eexists _, _, _.
  repeat split; lookups; try reflexivity; try eassumption.
Qed.

Lemma latch_SetInput_S (ev : callable -> M pyval) (c : devclass) (p : scan_shape)
    (l i1 i2 : nat) (in1 in2 : list callable) (q1 q2 : pyval) (ref : pyobj) (w : world) :
  shape_of c = Some p -> latch_state c l i1 i2 in1 in2 q1 q2 w ->
  exists w', SetInput ev l "S" ref w = Returns tt w'
             /\ latch_state c l i1 i2 in1 [Eval ref; CDev i1] q1 q2 w'.
Proof.
  intros Hp H. destruct (latch_distinct _ _ _ _ _ _ _ _ _ _ Hp H) as [Hl1 Hl2].
  destruct H as [Hne (dl & d1 & d2 & Hl & Hc & H1 & H2 & Hd1 & Hc1 & Hi1 & Hm1 & Hq1
                       & Hd2 & Hc2 & Hi2 & Hm2 & Hq2)].
  eexists. split; [by eapply SetInput_S|].
  split; [assumption|]. eexists _, _, _.
  repeat split; lookups; try reflexivity; try eassumption.
Qed.

Lemma Q_step (c : devclass) (p : scan_shape) (l i1 i2 : nat) (r s q1 q2 : pyval)
    (w : world) (n : nat) :
  shape_of c = Some p -> latch_at c l i1 i2 r s q1 q2 w ->
  let v2 := gate_out p s q1 in
  let v := gate_out p r v2 in
  exists w', Q (run (3 + n)) l w = Returns v w'
             /\ latch_at c l i1 i2 r s v (if stops p r then q2 else v2) w'.
Proof.
  intros Hp H v2 v. destruct (latch_distinct _ _ _ _ _ _ _ _ _ _ Hp H) as [Hl1 Hl2].
  destruct H as [Hne (dl & d1 & d2 & Hl & Hc & H1 & H2 & Hd1 & Hc1 & Hi1 & Hm1 & Hq1
                       & Hd2 & Hc2 & Hi2 & Hm2 & Hq2)].
  destruct (loop_step i1 i2 Hne w d1 d2 p p r s n) as (w' & Hrun & Hn1 & Hn2 & Hoth);
    try assumption; try congruence.
  rewrite Hq1 in *. fold v2 in Hrun, Hn1, Hn2. fold v in Hrun, Hn1.
  exists w'. split.
  - rewrite (Q_latch _ _ _ _ _ Hl Hc H1). exact Hrun.
  - split; [assumption|]. eexists _, _, _.
    rewrite Hoth by congruence. rewrite Hn1, Hn2.
    repeat split; try reflexivity; try eassumption;
      destruct (stops p r); simpl; first [assumption | reflexivity].
Qed.

Lemma Q__step (c : devclass) (p : scan_shape) (l i1 i2 : nat) (r s q1 q2 : pyval)
    (w : world) (n : nat) :
  shape_of c = Some p -> latch_at c l i1 i2 r s q1 q2 w ->
  let v1 := gate_out p r q2 in
  let v := gate_out p s v1 in
  exists w', Q_ (run (3 + n)) l w = Returns v w'
             /\ latch_at c l i1 i2 r s (if stops p s then q1 else v1) v w'.
Proof.
  intros Hp H v1 v. destruct (latch_distinct _ _ _ _ _ _ _ _ _ _ Hp H) as [Hl1 Hl2].
  destruct H as [Hne (dl & d1 & d2 & Hl & Hc & H1 & H2 & Hd1 & Hc1 & Hi1 & Hm1 & Hq1
                       & Hd2 & Hc2 & Hi2 & Hm2 & Hq2)].
  destruct (loop_step i2 i1 (not_eq_sym Hne) w d2 d1 p p s r n)
    as (w' & Hrun & Hn2 & Hn1 & Hoth); try assumption; try congruence.
  rewrite Hq2 in *. fold v1 in Hrun, Hn1, Hn2. fold v in Hrun, Hn2.
  exists w'. split.
  - rewrite (Q__latch _ _ _ _ _ Hl Hc H2). exact Hrun.
  - split; [assumption|]. eexists _, _, _.
    rewrite Hoth by congruence. rewrite Hn1, Hn2.
    repeat split; try reflexivity; try eassumption;
      destruct (stops p s); simpl; first [assumption | reflexivity].
Qed.

(** A NOR latch with S asserted and R not shows [true], one with R
    asserted and S not shows [false], at every call. *)
Lemma nor_driven (l i1 i2 : nat) (r s : pyval) (q : bool) (n : nat) (ms : list method) :
  resolve r = VBool (negb q) -> resolve s = VBool q ->
  forall (q1 q2 : pyval) (w : world),
    latch_at BoolNOR l i1 i2 r s q1 q2 w ->
    exists w', calls (run (3 + n)) l ms w = Returns (map (shows q) ms) w'.
Proof.
  intros Hr Hs. induction ms as [|m ms IH]; intros q1 q2 w H.
  - eexists. reflexivity.
  - cbn [calls map]. unfold bind.
    destruct m; cbn [call_callable].
    + destruct (Q_step BoolNOR _ l i1 i2 r s q1 q2 w n eq_refl H) as (w1 & Hrun & H1).
      rewrite Hrun.
      destruct (IH _ _ _ H1) as (w2 & Hcalls). rewrite Hcalls.
      eexists. f_equal. f_equal.
      unfold gate_out, stops. rewrite Hr, Hs. by destruct q, q1 as [|[|]|].
    + destruct (Q__step BoolNOR _ l i1 i2 r s q1 q2 w n eq_refl H) as (w1 & Hrun & H1).
      rewrite Hrun.
      destruct (IH _ _ _ H1) as (w2 & Hcalls). rewrite Hcalls.
      eexists. f_equal. f_equal.
      unfold gate_out, stops. rewrite Hr, Hs. by destruct q, q2 as [|[|]|].
Qed.

(** A NOR latch with neither input asserted keeps showing the output
    its two cached values agree on. *)
Lemma nor_hold (l i1 i2 : nat) (r s : pyval) (q : bool) (n : nat) (ms : list method) :
  resolve r = VBool false -> resolve s = VBool false ->
  forall w : world,
    latch_at BoolNOR l i1 i2 r s (VBool q) (VBool (negb q)) w ->
    exists w', calls (run (3 + n)) l ms w = Returns (map (shows q) ms) w'.
Proof.
  intros Hr Hs.
  assert (Ev : forall a b : bool,
             gate_out (mkShape true (VBool false) (VBool true)) r
               (gate_out (mkShape true (VBool false) (VBool true)) s (VBool a))
             = VBool a
             /\ gate_out (mkShape true (VBool false) (VBool true)) s
               (gate_out (mkShape true (VBool false) (VBool true)) r (VBool a))
             = VBool a
             /\ gate_out (mkShape true (VBool false) (VBool true)) s (VBool a) = VBool (negb a)
             /\ gate_out (mkShape true (VBool false) (VBool true)) r (VBool a) = VBool (negb a)
             /\ stops (mkShape true (VBool false) (VBool true)) r = false
             /\ stops (mkShape true (VBool false) (VBool true)) s = false).
  { intros a b. unfold gate_out, stops. rewrite Hr, Hs. by destruct a. }
  induction ms as [|m ms IH]; intros w H.
  - eexists. reflexivity.
  - cbn [calls map]. unfold bind.
    destruct m; cbn [call_callable].
    + destruct (Q_step BoolNOR _ l i1 i2 r s _ _ w n eq_refl H) as (w1 & Hrun & H1).
      destruct (Ev q q) as (E1 & E2 & E3 & E4 & E5 & E6).
      rewrite E1, E3, E5 in *. rewrite Hrun.
      destruct (IH _ H1) as (w2 & Hcalls). rewrite Hcalls.
      eexists. reflexivity.
    + destruct (Q__step BoolNOR _ l i1 i2 r s _ _ w n eq_refl H) as (w1 & Hrun & H1).
      destruct (Ev (negb q) q) as (E1 & E2 & E3 & E4 & E5 & E6).
      rewrite E2, E4, E6, negb_involutive in *. rewrite Hrun.
      destruct (IH _ H1) as (w2 & Hcalls). rewrite Hcalls.
      eexists. reflexivity.
Qed.

Lemma returned_bind_tt {A} (m : M unit) (k : M A) (w w' : world) :
  m w = Returns tt w' -> (m >> k) w = k w'.
Proof. intros H. unfold bind. by rewrite H. Qed.

(** ** Construction *)

Lemma init_eq (self n : nat) (names : list string) (d : device) (w : world) :
  heap w !! self = Some d ->
  _BoolDevice_init self n names w = Returns tt (store self (initialised n names d) w).
Proof.
  intros Hd. unfold _BoolDevice_init, In_set, Enable_set, bind.
  rewrite (modify_eq _ _ _ _ Hd).
  repeat (rewrite (modify_eq _ _ _ _ (heap_store_eq _ _ _)); rewrite store_store).
  reflexivity.
Qed.

Lemma new_gate_eq (c : devclass) (names : list string) (w : world) :
  new_gate c names w
  = Returns (next w)
      (store (next w) (initialised (mininputqty c) names (blank c)) (bump w)).
Proof.
  unfold new_gate, alloc, bind.
  destruct c; simpl; unfold _BoolOneInput_init, _BoolMultiInput_init;
    rewrite (init_eq _ _ _ _ _ (heap_store_eq _ _ _)), store_store; reflexivity.
Qed.

Lemma only_allocates_refl (w : world) : only_allocates w w.
Proof. split; [lia | reflexivity]. Qed.

Lemma only_allocates_trans (w1 w2 w3 : world) :
  only_allocates w1 w2 -> only_allocates w2 w3 -> only_allocates w1 w3.
Proof.
  intros [Hn1 H1] [Hn2 H2]. split; [lia|].
  intros j Hj. rewrite H2 by lia. by apply H1.
Qed.

Lemma only_allocates_store (w0 w : world) (i : nat) (d : device) :
  only_allocates w0 w -> next w0 <= i -> only_allocates w0 (store i d w).
Proof.
  intros [Hn H] Hi. split; [exact Hn|].
  intros j Hj. rewrite heap_store_ne by lia. by apply H.
Qed.

Lemma only_allocates_bump (w0 w : world) :
  only_allocates w0 w -> only_allocates w0 (bump w).
Proof. intros [Hn H]. split; [simpl; lia | exact H]. Qed.

Lemma new_gate_allocates (c : devclass) (names : list string) (w : world) :
  exists r w', new_gate c names w = Returns r w'
               /\ next w <= r /\ only_allocates w w'.
Proof.
  rewrite new_gate_eq. eexists _, _. split; [reflexivity|]. split; [lia|].
  apply only_allocates_store; [|lia]. apply only_allocates_bump, only_allocates_refl.
Qed.

(** The constructor of the latch, given a [gate] that only allocates. *)
Lemma SRFF_init_spec (gate : M nat) :
  (forall w, exists r w', gate w = Returns r w' /\ next w <= r /\ only_allocates w w') ->
  forall w, exists w' ic1 ic2,
    BoolSRFF_init gate w = Returns (next w) w'
    /\ heap w' !! next w
       = Some (set_IC2 ic2 (set_IC1 ic1 (initialised 1 ["R"; "S"]%string (blank BoolSRFF))))
    /\ only_allocates w w'.
Proof.
  intros Hg w. unfold BoolSRFF_init, alloc, bind, _BoolOneInput_init.
  rewrite (init_eq _ _ _ _ _ (heap_store_eq _ _ _)), store_store.
  set (w1 := store (next w) _ (bump w)).
  assert (A1 : only_allocates w w1).
  { apply only_allocates_store; [|lia]. apply only_allocates_bump, only_allocates_refl. }
  destruct (Hg w1) as (ic1 & w2 & E1 & Hi1 & [Hn2 Hf2]). rewrite E1.
  assert (L2 : heap w2 !! next w = heap w1 !! next w) by (apply Hf2; simpl; lia).
  unfold w1 in L2. rewrite heap_store_eq in L2.
  rewrite (modify_eq _ _ _ _ L2).
  set (w3 := store (next w) _ w2).
  destruct (Hg w3) as (ic2 & w4 & E2 & Hi2 & [Hn4 Hf4]). rewrite E2.
  assert (L4 : heap w4 !! next w = heap w3 !! next w).
  { apply Hf4. simpl in *. lia. }
  unfold w3 in L4. rewrite heap_store_eq in L4.
  rewrite (modify_eq _ _ _ _ L4).
  eexists _, ic1, ic2. split; [reflexivity|]. split; [apply heap_store_eq|].
  apply only_allocates_store; [|lia].
  apply only_allocates_trans with w3; [|by split].
  apply only_allocates_store; [|lia].
  apply only_allocates_trans with w1; [assumption | by split].
Qed.

Lemma new_TestDevice_eq (w : world) :
  new_TestDevice w
  = Returns (next w)
      (store (next w) (initialised 1 ["in1"; "in2"]%string (blank TestDevice)) (bump w)).
Proof.
  unfold new_TestDevice, alloc, bind, _BoolOneInput_init.
  rewrite (init_eq _ _ _ _ _ (heap_store_eq _ _ _)), store_store. reflexivity.
Qed.

Lemma new_BoolJKFF_spec (w : world) :
  exists w' d,
    new_BoolJKFF w = Returns (next w) w'
    /\ heap w' !! next w = Some d
    /\ wiring d = wiring (set_ICK (4 + next w) (set_ICJ (3 + next w)
         (set_IC2 (2 + next w) (set_IC1 (1 + next w)
            (initialised 1 ["J"; "K"; "CLK"]%string
               (set_InputNames ["J"; "K"; "CLK"]%string (blank BoolJKFF)))))))
    /\ only_allocates w w'.
Proof.
  unfold new_BoolJKFF, alloc, bind, _BoolOneInput_init.
  rewrite (modify_eq _ _ _ _ (heap_store_eq _ _ _)), store_store.
  rewrite (init_eq _ _ _ _ _ (heap_store_eq _ _ _)), store_store.
  rewrite new_gate_eq. rewrite ?next_store, ?next_bump.
  erewrite modify_eq by (lookups; reflexivity).
  rewrite new_gate_eq. rewrite ?next_store, ?next_bump.
  erewrite modify_eq by (lookups; reflexivity).
  rewrite new_gate_eq. rewrite ?next_store, ?next_bump.
  erewrite modify_eq by (lookups; reflexivity).
  rewrite new_gate_eq. rewrite ?next_store, ?next_bump.
  erewrite modify_eq by (lookups; reflexivity).
  unfold In_set.
  erewrite modify_eq by (lookups; reflexivity).
  erewrite modify_eq by (lookups; reflexivity).
  eexists _, _. split; [reflexivity|]. split; [by lookups|]. split; [reflexivity|].
  split; [simpl; lia|]. intros j Hj. by lookups.
Qed.

Lemma new_default_allocates (c : devclass) (w : world) :
  exists r w', new_default c w = Returns r w' /\ next w <= r /\ only_allocates w w'.
Proof.
  destruct c; simpl; try apply new_gate_allocates.
  - destruct (SRFF_init_spec _ (new_gate_allocates BoolNOR []) w) as (w' & _ & _ & E & _ & A).
    eexists _, _. split; [exact E|]. split; [lia | exact A].
  - destruct (new_BoolJKFF_spec w) as (w' & d & E & _ & _ & A).
    eexists _, _. split; [exact E|]. split; [lia | exact A].
  - rewrite new_TestDevice_eq. eexists _, _. split; [reflexivity|]. split; [lia|].
    apply only_allocates_store; [|lia]. apply only_allocates_bump, only_allocates_refl.
Qed.

(** What every constructor leaves in the new object. *)
Lemma construct_spec (c : devclass) (names : list string) (gc : option devclass)
    (w : world) :
  exists self w' d,
    construct c names gc w = Returns self w'
    /\ heap w' !! self = Some d
    /\ cls d = c
    /\ _indict d = initial_indict (declared c names)
    /\ _input d = repeat (CLambda VNone) (mininputqty c).
Proof.
  destruct c; simpl construct; simpl declared; simpl mininputqty;
    try (rewrite new_gate_eq; eexists _, _, _; split; [reflexivity|];
         split; [apply heap_store_eq|]; repeat split; reflexivity).
  - destruct (SRFF_init_spec _ (new_default_allocates (default BoolNOR gc)) w)
      as (w' & ic1 & ic2 & E & L & _).
    eexists _, _, _. split; [exact E|]. split; [exact L|]. repeat split; reflexivity.
  - destruct (new_BoolJKFF_spec w) as (w' & d & E & L & W & _).
    eexists _, _, _. split; [exact E|]. split; [exact L|].
    unfold wiring in W. injection W as -> -> _ -> _ _ _ _ _. repeat split; reflexivity.
  - rewrite new_TestDevice_eq. eexists _, _, _. split; [reflexivity|].
    split; [apply heap_store_eq|]. repeat split; reflexivity.
Qed.

Lemma initial_indict_lookup (names : list string) (name : string) :
  In name names -> initial_indict names !! name = Some (CLambda VNone).
Proof.
  unfold initial_indict. generalize (∅ : gmap string callable).
  assert (G : forall (l : list string) (m : gmap string callable),
             In name l \/ m !! name = Some (CLambda VNone) ->
             foldl (fun m0 x => <[x := Eval (OVal VNone)]> m0) m l !! name
             = Some (CLambda VNone)).
  { induction l as [|x l IH]; intros m [H|H]; simpl.
    - destruct H.
    - exact H.
    - apply IH. destruct H as [->|H]; [right; apply lookup_insert_eq | by left].
    - apply IH. right. destruct (decide (x = name)) as [->|Hne];
        [apply lookup_insert_eq | by rewrite lookup_insert_ne]. }
  intros m H. apply G. by left.
Qed.

Lemma GetInput_eq (ev : callable -> M pyval) (self : nat) (name : string)
    (d : device) (src : callable) (w : world) :
  heap w !! self = Some d -> _indict d !! name = Some src ->
  GetInput ev self name w = _inputState ev (One (OCall src)) w.
Proof.
  intros Hd Hs. unfold GetInput, bind. by rewrite (getobj_eq _ _ _ Hd), Hs.
Qed.

Lemma floating_constant (n : nat) (w : world) :
  _inputState (run (S n)) (One (OCall (CLambda VNone))) w = Returns VNone w.
Proof. by rewrite (inputState_one _ _ _ _ _ (run_lambda n VNone w)). Qed.

(** ** Gates on constant inputs *)

Lemma scan_consts (n : nat) (p : scan_shape) (vs : list pyval) (w : world) :
  scan (run (S n)) p (map CLambda vs) w
  = Returns (if existsb (stops p) vs then early p else final p) w.
Proof.
  induction vs as [|v vs IH]; [reflexivity|].
  cbn [map existsb]. rewrite (scan_cons _ _ _ _ _ _ _ (run_lambda n v w)).
  fold (stops p v). destruct (stops p v); [reflexivity | exact IH].
Qed.

Lemma gate_consts (g : nat) (d : device) (p : scan_shape) (vs : list pyval)
    (w : world) (n : nat) :
  heap w !! g = Some d -> ingetvalue d = false -> shape_of (cls d) = Some p ->
  returned ((In_set g (Seq (map OVal vs)) >> run (2 + n) (CDev g)) w)
  = Some (if existsb (stops p) vs then early p else final p).
Proof.
  intros Hd Hm Hp. unfold In_set.
  rewrite (returned_bind_tt _ _ _ _ (modify_eq _ _ _ _ Hd)).
  cbn [Nat.add]. rewrite run_dev.
  erewrite (gate_fresh _ _ _ _ (set_input (map Eval (map OVal vs)) d) _ p _
              (heap_store_eq _ _ _) Hp Hm).
  - reflexivity.
  - cbn [_input set_input]. rewrite map_map. cbn [Eval].
    apply scan_consts.
  - apply heap_entered_eq.
Qed.

Lemma not_fresh (ev : callable -> M pyval) (g : nat) (d d1 : device)
    (c : callable) (rest : list callable) (x : pyval) (w w1 : world) :
  heap w !! g = Some d -> cls d = BoolNOT -> ingetvalue d = false ->
  _input d = c :: rest ->
  ev c (entered g d w) = Returns x w1 ->
  heap w1 !! g = Some d1 ->
  __call__ ev g w
  = Returns (VBool (negb (asserted x)))
      (store g (set_ingetvalue false (set_lastget (VBool (negb (asserted x))) d1)) w1).
Proof.
  intros Hd Hc Hm Hin Hev Hd1. unfold __call__, bind.
  rewrite (getobj_eq _ _ _ Hd), object_truth_true.
  unfold _getvalue, bind. rewrite (getobj_eq _ _ _ Hd), Hc.
  apply trap_fresh with d; try assumption.
  unfold BoolNOT_getvalue, bind.
  rewrite (getobj_eq _ _ _ (heap_entered_eq _ _ _)). cbn [_input set_ingetvalue].
  rewrite Hin, (inputState_one _ _ _ _ _ Hev).
  unfold asserted. by destruct (resolve_cases x) as [->|[->| ->]].
Qed.

Lemma and_value (vs : list pyval) :
  (if existsb (stops (mkShape false (VBool false) (VBool true))) vs
   then VBool false else VBool true)
  = VBool (forallb asserted vs).
Proof.
  induction vs as [|v vs IH]; [reflexivity|]. cbn [existsb forallb].
  unfold stops at 1. cbn [stop]. fold (asserted v).
  destruct (asserted v); [exact IH | reflexivity].
Qed.

Lemma nand_value (vs : list pyval) :
  (if existsb (stops (mkShape false (VBool true) (VBool false))) vs
   then VBool true else VBool false)
  = VBool (negb (forallb asserted vs)).
Proof.
  induction vs as [|v vs IH]; [reflexivity|]. cbn [existsb forallb].
  unfold stops at 1. cbn [stop]. fold (asserted v).
  destruct (asserted v); [exact IH | reflexivity].
Qed.

Lemma nor_value (vs : list pyval) :
  (if existsb (stops (mkShape true (VBool false) (VBool true))) vs
   then VBool false else VBool true)
  = VBool (negb (existsb asserted vs)).
Proof.
  induction vs as [|v vs IH]; [reflexivity|]. cbn [existsb].
  unfold stops at 1. cbn [stop]. fold (asserted v).
  destruct (asserted v); [reflexivity | exact IH].
Qed.


(** ** Loops of two gates *)

Lemma same_wiring_sym (w w' : world) : same_wiring w w' -> same_wiring w' w.
Proof. intros H j. by rewrite H. Qed.

Lemma same_wiring_entered (i : nat) (d : device) (w : world) :
  heap w !! i = Some d -> same_wiring w (entered i d w).
Proof.
  intros Hd j. unfold entered, note. simpl.
  apply (same_wiring_store i d (set_ingetvalue true d) w Hd eq_refl j).
Qed.

Lemma independent_same_wiring (c : callable) (i1 i2 k e : nat) (w w1 : world) :
  same_wiring w w1 -> independent c i1 i2 k e w -> independent c i1 i2 k e w1.
Proof.
  intros Hk Hi w' m Hw' Hm. apply Hi; [|exact Hm].
  by apply same_wiring_trans with w1.
Qed.

Lemma independent_constant (v : pyval) (i1 i2 : nat) (w : world) :
  independent (CLambda v) i1 i2 1 0 w.
Proof.
  intros w' m _ Hm. destruct m as [|m]; [lia|].
  exists v, w'. rewrite run_lambda. repeat split. lia.
Qed.

Lemma loop_wired_same_wiring (l i1 i2 : nat) (cr cs : callable) (k e : nat)
    (w w' : world) :
  same_wiring w w' -> loop_wired l i1 i2 cr cs k e w -> loop_wired l i1 i2 cr cs k e w'.
Proof.
  intros Hk (Hne & (dl & d1 & d2 & p1 & p2 & Hl & Hc & H1 & H2 & Hd1 & Hp1 & Hw1
                     & Hd2 & Hp2 & Hw2) & Hr & Hs).
  split; [assumption|]. split; [|split; by apply independent_same_wiring with w].
  destruct (same_wiring_lookup _ _ _ _ Hk Hl) as (dl' & Hl' & El).
  destruct (same_wiring_lookup _ _ _ _ Hk Hd1) as (d1' & Hd1' & E1).
  destruct (same_wiring_lookup _ _ _ _ Hk Hd2) as (d2' & Hd2' & E2).
  unfold wiring in *.
  exists dl', d1', d2', p1, p2.
  repeat split; try assumption; try congruence.
  all: destruct Hc as [Hc|Hc]; [left|right]; congruence.
Qed.

Section OpenLoop.
Variables i1 i2 : nat.
Hypothesis Hne : i1 <> i2.

(** The gate [i2], whose inputs are a source outside the loop and
    [i1], called while [i1] is being evaluated. *)
Lemma inner_call_open (w0 w : world) (d1 d2 : device) (p1 p2 : scan_shape)
    (cs : callable) (k e n : nat) :
  same_wiring w0 w -> independent cs i1 i2 k e w0 -> k <= S n ->
  heap w !! i1 = Some d1 -> shape_of (cls d1) = Some p1 ->
  ingetvalue d1 = true ->
  heap w !! i2 = Some d2 -> shape_of (cls d2) = Some p2 ->
  _input d2 = [cs; CDev i1] ->
  exists v w', run (S (S n)) (CDev i2) w = Returns v w'
               /\ length (evals w') <= 1 + e + length (evals w).
Proof using Hne.
  intros Hsw Hind Hk Hd1 Hp1 Hin1 Hd2 Hp2 Hwire. rewrite run_dev.
  destruct (ingetvalue d2) eqn:Hin2.
  - rewrite (gate_reentrant _ _ _ _ _ Hd2 Hp2 Hin2).
    eexists _, _. split; [reflexivity|]. rewrite evals_store. lia.
  - destruct (Hind (entered i2 d2 w) (S n)) as (x & w2 & Ex & K1 & K2 & Klen);
      [|assumption|].
    { apply same_wiring_trans with w; [assumption | by apply same_wiring_entered]. }
    rewrite heap_entered_ne in K1 by congruence. rewrite Hd1 in K1.
    rewrite heap_entered_eq in K2. rewrite evals_entered in Klen. simpl in Klen.
    pose proof (gate_reentrant (run n) _ _ _ _ K1 Hp1 Hin1) as Hre.
    assert (Hscan : exists r w1,
               scan (run (S n)) p2 (_input d2) (entered i2 d2 w) = Returns r w1
               /\ (exists d, heap w1 !! i2 = Some d)
               /\ length (evals w1) <= 1 + e + length (evals w)).
    { rewrite Hwire. rewrite (scan_cons _ _ _ _ _ _ _ Ex).
      destruct (Bool.eqb (truthy (resolve x)) (stop p2)).
      - eexists _, _. split; [reflexivity|]. split; [eexists; exact K2 | lia].
      - rewrite (scan_cons (run (S n)) _ (CDev i1) _ _ _ _ Hre).
        assert (Hi2 : exists d, heap (store i1 (set_ingetvalue false d1) w2) !! i2 = Some d).
        { eexists. rewrite heap_store_ne by assumption. exact K2. }
        destruct (Bool.eqb (truthy (resolve (lastget d1))) (stop p2));
          [|rewrite scan_nil]; eexists _, _; (split; [reflexivity|]);
          (split; [exact Hi2 | rewrite evals_store; lia]). }
    destruct Hscan as (r & w1 & Hs & [d Hd] & Hlen).
    rewrite (gate_fresh _ _ _ _ _ _ _ _ Hd2 Hp2 Hin2 Hs Hd).
    eexists _, _. split; [reflexivity|]. rewrite evals_store. exact Hlen.
Qed.

(** The gate [i1] called from outside, whatever the two marks are. *)
Lemma outer_call_open (w : world) (d1 d2 : device) (p1 p2 : scan_shape)
    (cr cs : callable) (k e n : nat) :
  independent cr i1 i2 k e w -> independent cs i1 i2 k e w ->
  heap w !! i1 = Some d1 -> shape_of (cls d1) = Some p1 ->
  heap w !! i2 = Some d2 -> shape_of (cls d2) = Some p2 ->
  _input d1 = [cr; CDev i2] ->
  _input d2 = [cs; CDev i1] ->
  exists v w', run (2 + k + n) (CDev i1) w = Returns v w'
               /\ length (evals w') <= 2 + 2 * e + length (evals w).
Proof using Hne.
  intros Hir His Hd1 Hp1 Hd2 Hp2 Hw1 Hw2.
  assert (Hk : 1 <= k).
  { destruct k as [|k']; [|lia].
    destruct (Hir w 0 (same_wiring_refl w) (le_n 0)) as (v & w' & E & _). discriminate. }
  replace (2 + k + n) with (S (S (S (k - 1 + n)))) by lia.
  set (n' := k - 1 + n). rewrite run_dev.
  destruct (ingetvalue d1) eqn:Hin1.
  - rewrite (gate_reentrant _ _ _ _ _ Hd1 Hp1 Hin1).
    eexists _, _. split; [reflexivity|]. rewrite evals_store. lia.
  - pose proof (same_wiring_entered _ _ _ Hd1) as Hsw.
    destruct (Hir (entered i1 d1 w) (S (S n'))) as (x & w2 & Ex & K1 & K2 & Klen);
      [assumption | unfold n'; lia |].
    rewrite heap_entered_eq in K1.
    rewrite heap_entered_ne in K2 by assumption. rewrite Hd2 in K2.
    rewrite evals_entered in Klen. simpl in Klen.
    assert (Hsw2 : same_wiring w w2).
    { apply same_wiring_trans with (entered i1 d1 w); [assumption|].
      pose proof (run_keeps_wiring (S (S n')) cr (entered i1 d1 w)) as Hkw.
      by rewrite Ex in Hkw. }
    assert (Hscan : exists r' w1,
               scan (run (S (S n'))) p1 (_input d1) (entered i1 d1 w) = Returns r' w1
               /\ (exists d, heap w1 !! i1 = Some d)
               /\ length (evals w1) <= 2 + 2 * e + length (evals w)).
    { rewrite Hw1. rewrite (scan_cons _ _ _ _ _ _ _ Ex).
      destruct (Bool.eqb (truthy (resolve x)) (stop p1)).
      - eexists _, _. split; [reflexivity|]. split; [eexists; exact K1 | lia].
      - destruct (inner_call_open w w2 (set_ingetvalue true d1) d2 p1 p2 cs k e n')
          as (v & w3 & Hrun & Hlen); try assumption; try reflexivity.
        { unfold n'. lia. }
        rewrite (scan_cons _ _ _ _ _ _ _ Hrun).
        pose proof (run_keeps_wiring (S (S n')) (CDev i2) w2) as Hkw.
        rewrite Hrun in Hkw.
        destruct (same_wiring_lookup _ _ i1 _ Hkw K1) as (d1' & Hd1' & _).
        destruct (Bool.eqb (truthy (resolve v)) (stop p1));
          [|rewrite scan_nil]; eexists _, _; (split; [reflexivity|]);
          (split; [eexists; exact Hd1' | lia]). }
    destruct Hscan as (r' & w1 & Hs & [d Hd] & Hlen).
    rewrite (gate_fresh _ _ _ _ _ _ _ _ Hd1 Hp1 Hin1 Hs Hd).
    eexists _, _. split; [reflexivity|]. rewrite evals_store. exact Hlen.
Qed.
End OpenLoop.

Lemma Q_composite (ev : callable -> M pyval) (l i1 : nat) (dl : device) (w : world) :
  heap w !! l = Some dl -> cls dl = BoolSRFF \/ cls dl = BoolJKFF -> IC1 dl = Some i1 ->
  Q ev l w = ev (CDev i1) w.
Proof.
  intros Hl Hc H1. unfold Q, bind. rewrite (getobj_eq _ _ _ Hl).
  destruct Hc as [Hc|Hc]; rewrite Hc; unfold _getvalue, bind;
    rewrite (getobj_eq _ _ _ Hl), Hc, H1; reflexivity.
Qed.

Lemma Q__composite (ev : callable -> M pyval) (l i2 : nat) (dl : device) (w : world) :
  heap w !! l = Some dl -> cls dl = BoolSRFF \/ cls dl = BoolJKFF -> IC2 dl = Some i2 ->
  Q_ ev l w = ev (CDev i2) w.
Proof.
  intros Hl Hc H2. unfold Q_, bind. rewrite (getobj_eq _ _ _ Hl).
  destruct Hc as [Hc|Hc]; rewrite Hc, H2; reflexivity.
Qed.

Lemma independent_swap (c : callable) (i1 i2 k e : nat) (w : world) :
  independent c i1 i2 k e w -> independent c i2 i1 k e w.
Proof.
  intros H w' m Hw Hm. destruct (H w' m Hw Hm) as (v & w'' & E & A & B & C).
  exists v, w''. repeat split; assumption.
Qed.

(** A multi-input gate outside the loop, wired to constants. *)
Lemma independent_gate (g i1 i2 : nat) (dg : device) (p : scan_shape)
    (vs : list pyval) (w : world) :
  g <> i1 -> g <> i2 ->
  heap w !! g = Some dg -> shape_of (cls dg) = Some p ->
  _input dg = map CLambda vs ->
  independent (CDev g) i1 i2 2 1 w.
Proof.
  intros H1 H2 Hg Hp Hin w' m Hsw Hm.
  destruct (same_wiring_lookup _ _ _ _ Hsw Hg) as (dg' & Hg' & Ew).
  unfold wiring in Ew. injection Ew as Ec Ei _ _ _ _ _ _ _.
  rewrite <- Ec in Hp. rewrite <- Ei in Hin.
  destruct m as [|[|m]]; [lia | lia |]. rewrite run_dev.
  destruct (ingetvalue dg') eqn:Hmark.
  - rewrite (gate_reentrant _ _ _ _ _ Hg' Hp Hmark).
    eexists _, _. split; [reflexivity|].
    rewrite !heap_store_ne by assumption. repeat split. rewrite evals_store. lia.
  - erewrite (gate_fresh _ _ _ _ _ _ _ _ Hg' Hp Hmark).
    2: { rewrite Hin. apply scan_consts. }
    2: { apply heap_entered_eq. }
    eexists _, _. split; [reflexivity|].
    rewrite !heap_store_ne, !heap_entered_ne by assumption.
    repeat split. rewrite evals_store, evals_entered. simpl. lia.
Qed.

(** A NOT gate outside the loop, wired to a constant. *)
Lemma independent_not (g i1 i2 : nat) (dg : device) (v : pyval)
    (rest : list callable) (w : world) :
  g <> i1 -> g <> i2 ->
  heap w !! g = Some dg -> cls dg = BoolNOT ->
  _input dg = CLambda v :: rest ->
  independent (CDev g) i1 i2 2 1 w.
Proof.
  intros H1 H2 Hg Hc Hin w' m Hsw Hm.
  destruct (same_wiring_lookup _ _ _ _ Hsw Hg) as (dg' & Hg' & Ew).
  unfold wiring in Ew. injection Ew as Ec Ei _ _ _ _ _ _ _.
  rewrite <- Ec in Hc. rewrite <- Ei in Hin.
  destruct m as [|[|m]]; [lia | lia |]. rewrite run_dev.
  destruct (ingetvalue dg') eqn:Hmark.
  - unfold __call__, bind. rewrite (getobj_eq _ _ _ Hg'), object_truth_true.
    unfold _getvalue, bind. rewrite (getobj_eq _ _ _ Hg'), Hc.
    rewrite (trap_reentrant _ _ _ _ Hg' Hmark).
    eexists _, _. split; [reflexivity|].
    rewrite !heap_store_ne by assumption. repeat split. rewrite evals_store. lia.
  - erewrite (not_fresh _ _ _ _ _ _ v _ _ Hg' Hc Hmark Hin).
    2: { apply run_lambda. }
    2: { apply heap_entered_eq. }
    eexists _, _. split; [reflexivity|].
    rewrite !heap_store_ne, !heap_entered_ne by assumption.
    repeat split. rewrite evals_store, evals_entered. simpl. lia.
Qed.

(** The latch pair of a JK flip-flop just built is such a loop: its
    gating gates are NAND gates on constants. *)
Lemma jk_pair_loop_wired : loop_wired 0 1 2 (CDev 3) (CDev 4) 2 1 jk_built.
Proof.
  assert (H3 : heap jk_built !! 3 = Some (initialised 2 [] (blank BoolNAND)))
    by (vm_compute; reflexivity).
  assert (H4 : heap jk_built !! 4 = Some (initialised 2 [] (blank BoolNAND)))
    by (vm_compute; reflexivity).
  split; [lia|]. split; [|split].
  - exists (set_ICK 4 (set_ICJ 3 (set_IC2 2 (set_IC1 1
              (initialised 1 ["J"; "K"; "CLK"]%string
                 (set_InputNames ["J"; "K"; "CLK"]%string (blank BoolJKFF))))))),
      (set_input [CDev 3; CDev 2] (initialised 2 [] (blank BoolNAND))),
      (set_input [CDev 4; CDev 1] (initialised 2 [] (blank BoolNAND))),
      (mkShape false (VBool true) (VBool false)),
      (mkShape false (VBool true) (VBool false)).
    repeat split; try (vm_compute; reflexivity). right. reflexivity.
  - apply (independent_gate 3 1 2 (initialised 2 [] (blank BoolNAND))
             (mkShape false (VBool true) (VBool false))
             [VNone; VNone] jk_built); [lia | lia | exact H3 | reflexivity | reflexivity].
  - apply (independent_gate 4 1 2 (initialised 2 [] (blank BoolNAND))
             (mkShape false (VBool true) (VBool false))
             [VNone; VNone] jk_built); [lia | lia | exact H4 | reflexivity | reflexivity].
Qed.

Lemma cross_fed_never_returns (n : nat) :
  forall (a b : nat) (w : world), cross_fed a b w -> run n (CDev a) w = TooDeep.
Proof.
  induction n as [|n IH];
    intros a b w (Hne & da & db & Ha & Hca & Hia & Hma & Hqa & Hb & Hcb & Hib & Hqb);
    [reflexivity|].
  rewrite run_dev. unfold __call__, bind.
  rewrite (getobj_eq _ _ _ Ha), object_truth_true.
  unfold _getvalue, bind. rewrite (getobj_eq _ _ _ Ha), Hca.
  apply trap_too_deep with da; try assumption.
  unfold BoolNOR_getvalue, bind.
  rewrite (getobj_eq _ _ _ (heap_entered_eq _ _ _)). cbn [_input set_ingetvalue].
  rewrite Hia, BoolNOR_loop_scan.
  assert (Hb' : heap (entered a da w) !! b = Some db) by (by lookups).
  destruct (ingetvalue db) eqn:Hmb.
  - destruct n as [|m].
    + cbn [scan]. unfold bind.
      by rewrite (inputState_one_deep (run 0) (CDev b) (entered a da w) eq_refl).
    + assert (Hre : run (S m) (CDev b) (entered a da w)
                    = Returns (lastget db)
                        (store b (set_ingetvalue false db) (entered a da w))).
      { rewrite run_dev.
        apply (gate_reentrant _ _ _ _ (mkShape true (VBool false) (VBool true)) Hb');
          [by rewrite Hcb | assumption]. }
      rewrite (scan_cons _ _ _ _ _ _ _ Hre). cbn [stop].
      fold (asserted (lastget db)). rewrite Hqb. cbn [Bool.eqb].
      cbn [scan]. unfold bind.
      rewrite (inputState_one_deep (run (S m)) (CDev b)); [reflexivity|].
      apply IH with a. split; [congruence|].
      exists (set_ingetvalue false db), (set_ingetvalue true da).
      repeat split; try assumption; by lookups.
  - cbn [scan]. unfold bind.
    rewrite (inputState_one_deep (run n) (CDev b)); [reflexivity|].
    apply IH with a. split; [congruence|].
    exists db, (set_ingetvalue true da).
    repeat split; try assumption. apply heap_entered_eq.
Qed.

(** * The claims *)

(** C1. A call of a trapped value function on a device whose mark
    [ingetvalue] is set returns the stored [lastget] and clears the mark,
    whatever the value function is: the function is not run and nothing
    else of the store changes.  A call on a device whose mark is clear
    sets the mark, runs the value function, and when that returns [r],
    stores [r] as [lastget], clears the mark and returns [r]. *)
Theorem recursiontrap_contract (handler : nat -> M pyval) (self : nat)
    (w : world) (d : device) (Hd : heap w !! self = Some d) :
  (ingetvalue d = true ->
     recursiontrap handler self w
     = Returns (lastget d) (store self (set_ingetvalue false d) w))
  /\ (ingetvalue d = false ->
      forall (r : pyval) (w1 : world) (d1 : device),
        handler self (entered self d w) = Returns r w1 ->
        heap w1 !! self = Some d1 ->
        recursiontrap handler self w
        = Returns r (store self (set_ingetvalue false (set_lastget r d1)) w1)).
Proof.
  split.
  - intros Hin. by apply trap_reentrant.
  - intros Hin r w1 d1 Hh Hd1. by apply trap_fresh with d.
Qed.

Lemma recursiontrap_contract_witness :
  recursiontrap (fun _ => ret (VBool true)) 1 (entered 1 (blank BoolNOR) nor_latch_built)
  = Returns VNone
      (store 1 (set_ingetvalue false (set_ingetvalue true (blank BoolNOR)))
         (entered 1 (blank BoolNOR) nor_latch_built))
  /\ recursiontrap (fun _ => ret (VBool true)) 1 nor_latch_built
     = Returns (VBool true)
         (store 1 (set_ingetvalue false
                     (set_lastget (VBool true)
                        (set_ingetvalue true (initialised 2 [] (blank BoolNOR)))))
            (entered 1 (initialised 2 [] (blank BoolNOR)) nor_latch_built)).
Proof.
  assert (H1 : heap (entered 1 (blank BoolNOR) nor_latch_built) !! 1
               = Some (set_ingetvalue true (blank BoolNOR)))
    by (vm_compute; reflexivity).
  assert (H2 : heap nor_latch_built !! 1 = Some (initialised 2 [] (blank BoolNOR)))
    by (vm_compute; reflexivity).
  split.
  - apply (proj1 (recursiontrap_contract (fun _ => ret (VBool true)) 1 _ _ H1)).
    reflexivity.
  - apply (proj2 (recursiontrap_contract (fun _ => ret (VBool true)) 1 _ _ H2)).
    + reflexivity.
    + reflexivity.
    + apply heap_entered_eq.
Defined.

(** C2, as stated, fails: a latch of NOR gates with R bound to its own
    [IC2] and S to its own [IC1] is a loop of two cross-wired gates, and
    the calls [latch.Q()] and [latch.Q_()] exceed every bound on the call
    depth.  The re-entrant
    call on a gate's first input clears the mark, and the call on its
    second input starts over. *)
Lemma cross_fed_latch_never_returns :
  never_returns (CBound 0 MQ) nor_latch_cross_fed
  /\ never_returns (CBound 0 MQ_) nor_latch_cross_fed.
Proof.
  cut (forall n : nat, Q (run n) 0 nor_latch_cross_fed = TooDeep
                       /\ Q_ (run n) 0 nor_latch_cross_fed = TooDeep).
  { intros H. split; intros [|n]; try reflexivity; apply (H n). }
  intros n.
  assert (H0 : heap nor_latch_cross_fed !! 0
               = Some (mkDevice BoolSRFF [CLambda VNone] (CLambda (VBool true))
                         (<["S"%string := CDev 1]>
                            (<["R"%string := CDev 2]>
                               (initial_indict ["R"; "S"]%string)))
                         false VNone [] (Some 1) (Some 2) None None))
    by (vm_compute; reflexivity).
  assert (H1 : heap nor_latch_cross_fed !! 1
               = Some (set_input [CDev 2; CDev 2] (initialised 2 [] (blank BoolNOR))))
    by (vm_compute; reflexivity).
  assert (H2 : heap nor_latch_cross_fed !! 2
               = Some (set_input [CDev 1; CDev 1] (initialised 2 [] (blank BoolNOR))))
    by (vm_compute; reflexivity).
  rewrite (Q_latch _ _ _ _ _ H0 eq_refl eq_refl).
  rewrite (Q__latch _ _ _ _ _ H0 eq_refl eq_refl).
  split.
  - apply cross_fed_never_returns with 2. split; [lia|].
    eexists _, _. repeat split; try eassumption; reflexivity.
  - apply cross_fed_never_returns with 1. split; [lia|].
    eexists _, _. repeat split; try eassumption; reflexivity.
Qed.

(** C2, amended.  A composite whose gates [IC1] and [IC2] are wired in a
    loop, each with a source of its own first and the other gate second,
    the two sources standing outside the loop (each returns within depth
    [k] after at most [e] runs of a value function and leaves the two
    gates alone, as a constant does with [k = 1] and [e = 0]): whatever
    the two traps hold, a call of [Q] and a call of [Q_] return within
    depth [k + 2], after at most [2 + 2 e] runs of a value function, and
    leave the loop wired as it was, so that every later call returns as
    well. *)
Theorem loop_calls_terminate (l i1 i2 : nat) (cr cs : callable) (k e : nat)
    (w : world) (n : nat)
    (H : loop_wired l i1 i2 cr cs k e w) :
  (exists v w', Q (run (2 + k + n)) l w = Returns v w'
                /\ loop_wired l i1 i2 cr cs k e w'
                /\ length (evals w') <= 2 + 2 * e + length (evals w))
  /\ (exists v w', Q_ (run (2 + k + n)) l w = Returns v w'
                   /\ loop_wired l i1 i2 cr cs k e w'
                   /\ length (evals w') <= 2 + 2 * e + length (evals w)).
Proof.
  pose proof H as (Hne & (dl & d1 & d2 & p1 & p2 & Hl & Hc & H1 & H2 & Hd1 & Hp1 & Hw1
                          & Hd2 & Hp2 & Hw2) & Hr & Hs).
  split.
  - destruct (outer_call_open i1 i2 Hne w d1 d2 p1 p2 cr cs k e n)
      as (v & w' & Hrun & Hlen); try assumption.
    exists v, w'. rewrite (Q_composite _ _ _ _ _ Hl Hc H1). split; [exact Hrun|].
    split; [|exact Hlen].
    apply loop_wired_same_wiring with w; [|assumption].
    pose proof (run_keeps_wiring (2 + k + n) (CDev i1) w) as Hk.
    by rewrite Hrun in Hk.
  - destruct (outer_call_open i2 i1 (not_eq_sym Hne) w d2 d1 p2 p1 cs cr k e n)
      as (v & w' & Hrun & Hlen); try assumption; try by apply independent_swap.
    exists v, w'. rewrite (Q__composite _ _ _ _ _ Hl Hc H2). split; [exact Hrun|].
    split; [|exact Hlen].
    apply loop_wired_same_wiring with w; [|assumption].
    pose proof (run_keeps_wiring (2 + k + n) (CDev i2) w) as Hk.
    by rewrite Hrun in Hk.
Qed.

Lemma loop_calls_terminate_witness :
  ((exists v w', Q (run (2 + 1 + 0)) 0 nor_latch_set = Returns v w'
                 /\ loop_wired 0 1 2 (CLambda (VBool false)) (CLambda (VBool true)) 1 0 w'
                 /\ length (evals w') <= 2 + 2 * 0 + length (evals nor_latch_set))
   /\ (exists v w', Q_ (run (2 + 1 + 0)) 0 nor_latch_set = Returns v w'
                    /\ loop_wired 0 1 2 (CLambda (VBool false)) (CLambda (VBool true)) 1 0 w'
                    /\ length (evals w') <= 2 + 2 * 0 + length (evals nor_latch_set)))
  /\ ((exists v w', Q (run (2 + 2 + 0)) 0 jk_built = Returns v w'
                    /\ loop_wired 0 1 2 (CDev 3) (CDev 4) 2 1 w'
                    /\ length (evals w') <= 2 + 2 * 1 + length (evals jk_built))
      /\ (exists v w', Q_ (run (2 + 2 + 0)) 0 jk_built = Returns v w'
                       /\ loop_wired 0 1 2 (CDev 3) (CDev 4) 2 1 w'
                       /\ length (evals w') <= 2 + 2 * 1 + length (evals jk_built))).
Proof.
  assert (H : loop_wired 0 1 2 (CLambda (VBool false)) (CLambda (VBool true)) 1 0
                nor_latch_set).
  { split; [lia|]. split; [|split; apply independent_constant].
    exists (mkDevice BoolSRFF [CLambda VNone] (CLambda (VBool true))
              (<["R"%string := CLambda (VBool false)]>
                 (<["S"%string := CLambda (VBool true)]>
                    (initial_indict ["R"; "S"]%string)))
              false VNone [] (Some 1) (Some 2) None None),
      (set_input [CLambda (VBool false); CDev 2] (initialised 2 [] (blank BoolNOR))),
      (set_input [CLambda (VBool true); CDev 1] (initialised 2 [] (blank BoolNOR))),
      (mkShape true (VBool false) (VBool true)),
      (mkShape true (VBool false) (VBool true)).
    repeat split; try (vm_compute; reflexivity). left. reflexivity. }
  split.
  - exact (loop_calls_terminate 0 1 2 _ _ 1 0 nor_latch_set 0 H).
  - exact (loop_calls_terminate 0 1 2 _ _ 2 1 jk_built 0 jk_pair_loop_wired).
Defined.

(** C3. A latch of NOR gates, neither gate being evaluated: once S is
    set to an asserted-true constant and R to an asserted-false one,
    every call of [Q] returns true and every call of [Q_] returns false,
    in whatever series they are made; with S asserted-false and R
    asserted-true, [Q] returns false and [Q_] returns true. *)
Theorem nor_latch_set_reset (l i1 i2 : nat) (in1 in2 : list callable)
    (q1 q2 vt vf : pyval) (w : world) (n : nat) (ms : list method)
    (Hlatch : latch_state BoolNOR l i1 i2 in1 in2 q1 q2 w)
    (Ht : resolve vt = VBool true) (Hf : resolve vf = VBool false) :
  returned ((SetInput (run n) l "S" (OVal vt) >>
             SetInput (run n) l "R" (OVal vf) >>
             calls (run (3 + n)) l ms) w)
  = Some (map (shows true) ms)
  /\ returned ((SetInput (run n) l "S" (OVal vf) >>
                SetInput (run n) l "R" (OVal vt) >>
                calls (run (3 + n)) l ms) w)
     = Some (map (shows false) ms).
Proof.
  split.
  - destruct (latch_SetInput_S (run n) BoolNOR _ _ _ _ _ _ _ _ (OVal vt) _ eq_refl Hlatch)
      as (w1 & E1 & H1).
    destruct (latch_SetInput_R (run n) BoolNOR _ _ _ _ _ _ _ _ (OVal vf) _ eq_refl H1)
      as (w2 & E2 & H2).
    rewrite (returned_bind_tt _ _ _ _ E1), (returned_bind_tt _ _ _ _ E2).
    destruct (nor_driven l i1 i2 vf vt true n ms Hf Ht _ _ _ H2) as (w3 & E3).
    by rewrite E3.
  - destruct (latch_SetInput_S (run n) BoolNOR _ _ _ _ _ _ _ _ (OVal vf) _ eq_refl Hlatch)
      as (w1 & E1 & H1).
    destruct (latch_SetInput_R (run n) BoolNOR _ _ _ _ _ _ _ _ (OVal vt) _ eq_refl H1)
      as (w2 & E2 & H2).
    rewrite (returned_bind_tt _ _ _ _ E1), (returned_bind_tt _ _ _ _ E2).
    destruct (nor_driven l i1 i2 vt vf false n ms Ht Hf _ _ _ H2) as (w3 & E3).
    by rewrite E3.
Qed.

Lemma nor_latch_set_reset_witness :
  returned ((SetInput (run 0) 0 "S" (OVal (VBool true)) >>
             SetInput (run 0) 0 "R" (OVal (VBool false)) >>
             calls (run (3 + 0)) 0 [MQ; MQ_]) nor_latch_built)
  = Some [VBool true; VBool false]
  /\ returned ((SetInput (run 0) 0 "S" (OVal (VBool false)) >>
                SetInput (run 0) 0 "R" (OVal (VBool true)) >>
                calls (run (3 + 0)) 0 [MQ; MQ_]) nor_latch_built)
     = Some [VBool false; VBool true].
Proof.
  apply (nor_latch_set_reset 0 1 2 [CLambda VNone; CLambda VNone]
           [CLambda VNone; CLambda VNone] VNone VNone (VBool true) (VBool false)
           nor_latch_built 0 [MQ; MQ_]); [|reflexivity|reflexivity].
  split; [lia|]. eexists _, _, _. repeat split; vm_compute; reflexivity.
Defined.


(** C6, amended.  A latch of NOR gates whose cached values are [q] for
    [IC1] and its complement for [IC2]: once R and S are both set to an
    asserted-false constant, every call of [Q] returns [q] and every
    call of [Q_] its complement, however many are made. *)
Theorem nor_latch_hold (l i1 i2 : nat) (in1 in2 : list callable)
    (q : bool) (vf : pyval) (w : world) (n : nat) (ms : list method)
    (Hlatch : latch_state BoolNOR l i1 i2 in1 in2 (VBool q) (VBool (negb q)) w)
    (Hf : resolve vf = VBool false) :
  returned ((SetInput (run n) l "R" (OVal vf) >>
             SetInput (run n) l "S" (OVal vf) >>
             calls (run (3 + n)) l ms) w)
  = Some (map (shows q) ms).
Proof.
  destruct (latch_SetInput_R (run n) BoolNOR _ _ _ _ _ _ _ _ (OVal vf) _ eq_refl Hlatch)
    as (w1 & E1 & H1).
  destruct (latch_SetInput_S (run n) BoolNOR _ _ _ _ _ _ _ _ (OVal vf) _ eq_refl H1)
    as (w2 & E2 & H2).
  rewrite (returned_bind_tt _ _ _ _ E1), (returned_bind_tt _ _ _ _ E2).
  destruct (nor_hold l i1 i2 vf vf q n ms Hf Hf _ H2) as (w3 & E3).
  by rewrite E3.
Qed.

Lemma nor_latch_hold_witness :
  returned ((SetInput (run 0) 0 "R" (OVal (VBool false)) >>
             SetInput (run 0) 0 "S" (OVal (VBool false)) >>
             calls (run (3 + 0)) 0 [MQ; MQ_; MQ_; MQ]) nor_latch_settled)
  = Some [VBool true; VBool false; VBool false; VBool true].
Proof.
  apply (nor_latch_hold 0 1 2 [CLambda (VBool false); CDev 2]
           [CLambda (VBool true); CDev 1] true (VBool false)
           nor_latch_settled 0 [MQ; MQ_; MQ_; MQ]); [|reflexivity].
  split; [lia|].
  exists (mkDevice BoolSRFF [CLambda VNone] (CLambda (VBool true))
            (<["R"%string := CLambda (VBool false)]>
               (<["S"%string := CLambda (VBool true)]>
                  (initial_indict ["R"; "S"]%string)))
            false VNone [] (Some 1) (Some 2) None None),
    (set_lastget (VBool true)
       (set_input [CLambda (VBool false); CDev 2] (initialised 2 [] (blank BoolNOR)))),
    (set_lastget (VBool false)
       (set_input [CLambda (VBool true); CDev 1] (initialised 2 [] (blank BoolNOR)))).
  repeat split; vm_compute; reflexivity.
Defined.

(** C6, as stated, fails on a latch of NAND gates: set, it shows true
    and false at every reading; with both inputs false it shows true on
    both outputs. *)
Lemma nand_latch_does_not_hold :
  returned (nand_latch_hold empty_world)
  = Some ([VBool true; VBool false; VBool true; VBool false],
          [VBool true; VBool true; VBool true; VBool true]).
Proof. vm_compute. reflexivity. Qed.


(** C8. Gate truth tables.  A gate that is not being evaluated is
    wired to constant sources and called.  With any number of inputs in
    any order, AND returns true exactly when every input resolves
    asserted-true, NAND returns false exactly then and true otherwise,
    NOR returns false exactly when some input resolves asserted-true and
    true otherwise.  NOT returns the negation of what its input resolves
    to, and true when the input is floating. *)
Theorem gate_truth_tables (g : nat) (d : device) (w : world) (n : nat)
    (Hd : heap w !! g = Some d) (Hm : ingetvalue d = false) :
  (cls d = BoolAND -> forall vs : list pyval,
     returned ((In_set g (Seq (map OVal vs)) >> run (2 + n) (CDev g)) w)
     = Some (VBool (forallb asserted vs)))
  /\ (cls d = BoolNAND -> forall vs : list pyval,
        returned ((In_set g (Seq (map OVal vs)) >> run (2 + n) (CDev g)) w)
        = Some (VBool (negb (forallb asserted vs))))
  /\ (cls d = BoolNOR -> forall vs : list pyval,
        returned ((In_set g (Seq (map OVal vs)) >> run (2 + n) (CDev g)) w)
        = Some (VBool (negb (existsb asserted vs))))
  /\ (cls d = BoolNOT -> forall v : pyval,
        returned ((In_set g (One (OVal v)) >> run (2 + n) (CDev g)) w)
        = Some (VBool (negb (asserted v)))
        /\ (resolve v = VNone ->
            returned ((In_set g (One (OVal v)) >> run (2 + n) (CDev g)) w)
            = Some (VBool true))).
Proof.
  repeat split.
  - intros Hc vs. rewrite <- and_value. apply (gate_consts g d); try assumption. by rewrite Hc.
  - intros Hc vs. rewrite <- nand_value. apply (gate_consts g d); try assumption. by rewrite Hc.
  - intros Hc vs. rewrite <- nor_value. apply (gate_consts g d); try assumption. by rewrite Hc.
  - unfold In_set.
    rewrite (returned_bind_tt _ _ _ _ (modify_eq _ _ _ _ Hd)).
    cbn [Nat.add]. rewrite run_dev.
    erewrite (not_fresh _ _ (set_input [Eval (OVal v)] d) _ (CLambda v) [] v _ _
                (heap_store_eq _ _ _));
      try reflexivity; try assumption.
    apply heap_entered_eq.
  - intros Hv. unfold In_set.
    rewrite (returned_bind_tt _ _ _ _ (modify_eq _ _ _ _ Hd)).
    cbn [Nat.add]. rewrite run_dev.
    erewrite (not_fresh _ _ (set_input [Eval (OVal v)] d) _ (CLambda v) [] v _ _
                (heap_store_eq _ _ _));
      try reflexivity; try assumption.
    + unfold asserted. by rewrite Hv.
    + apply heap_entered_eq.
Qed.

Lemma gate_truth_tables_witness :
  returned ((In_set 1 (Seq (map OVal [VBool true; VBool false; VBool true])) >>
             run (2 + 0) (CDev 1)) four_gates) = Some (VBool false)
  /\ returned ((In_set 3 (Seq (map OVal [VBool true; VBool false; VBool true])) >>
                run (2 + 0) (CDev 3)) four_gates) = Some (VBool true)
  /\ returned ((In_set 2 (Seq (map OVal [VBool false; VBool false; VInt 0])) >>
                run (2 + 0) (CDev 2)) four_gates) = Some (VBool true)
  /\ returned ((In_set 0 (One (OVal VNone)) >> run (2 + 0) (CDev 0)) four_gates)
     = Some (VBool true).
Proof.
  assert (H0 : heap four_gates !! 0 = Some (initialised 1 [] (blank BoolNOT)))
    by (vm_compute; reflexivity).
  assert (H1 : heap four_gates !! 1 = Some (initialised 2 [] (blank BoolAND)))
    by (vm_compute; reflexivity).
  assert (H2 : heap four_gates !! 2 = Some (initialised 2 [] (blank BoolNOR)))
    by (vm_compute; reflexivity).
  assert (H3 : heap four_gates !! 3 = Some (initialised 2 [] (blank BoolNAND)))
    by (vm_compute; reflexivity).
  split; [|split; [|split]].
  - exact (proj1 (gate_truth_tables 1 _ four_gates 0 H1 eq_refl) eq_refl
             [VBool true; VBool false; VBool true]).
  - exact (proj1 (proj2 (gate_truth_tables 3 _ four_gates 0 H3 eq_refl)) eq_refl
             [VBool true; VBool false; VBool true]).
  - exact (proj1 (proj2 (proj2 (gate_truth_tables 2 _ four_gates 0 H2 eq_refl))) eq_refl
             [VBool false; VBool false; VInt 0]).
  - exact (proj2 (proj2 (proj2 (proj2 (gate_truth_tables 0 _ four_gates 0 H0 eq_refl)))
                    eq_refl VNone) eq_refl).
Defined.


(** C10. Whatever the class and the arguments, the object a
    constructor returns has every declared named input floating:
    [GetInput] returns [None] for each.  It has as many positional
    inputs as its class's minimum, and each resolves to floating. *)
Theorem fresh_device_floating (c : devclass) (names : list string)
    (gc : option devclass) (w : world) :
  exists self w' d,
    construct c names gc w = Returns self w'
    /\ heap w' !! self = Some d
    /\ (forall name n, In name (declared c names) ->
          GetInput (run (S n)) self name w' = Returns VNone w')
    /\ length (_input d) = mininputqty c
    /\ (forall src n, In src (_input d) ->
          _inputState (run (S n)) (One (OCall src)) w' = Returns VNone w').
Proof.
  destruct (construct_spec c names gc w) as (self & w' & d & E & L & Hc & Hi & Hin).
  exists self, w', d. split; [exact E|]. split; [exact L|]. split; [|split].
  - intros name n Hname.
    rewrite (GetInput_eq _ _ _ _ (CLambda VNone) _ L).
    + apply floating_constant.
    + rewrite Hi. by apply initial_indict_lookup.
  - rewrite Hin. apply repeat_length.
  - intros src n Hsrc. rewrite Hin in Hsrc. apply repeat_spec in Hsrc. subst src.
    apply floating_constant.
Qed.

(** C9, as stated, fails: an AND gate, whose class declares two inputs,
    accepts a single source without an error and is left with one. *)
Lemma arity_not_enforced :
  exists (d : device) (w : world),
    and_gate_one_source empty_world = Returns d w
    /\ cls d = BoolAND
    /\ length (_input d) < mininputqty (cls d).
Proof.
  eexists _, _. split; [vm_compute; reflexivity|]. split; [reflexivity|].
  simpl. lia.
Qed.

(** C9, amended.  The object a constructor returns has exactly as many
    inputs as its class's minimum (one, or two for the multi-input
    gates).  An assignment to [In] of an existing device never raises and
    leaves the device with exactly the sources given ([Eval] of each
    element of a sequence, [Eval] of the object itself for a
    non-sequence), however many the class declares. *)
Theorem arity_as_built_then_as_given :
  (forall (c : devclass) (names : list string) (gc : option devclass) (w : world),
      exists self w' d,
        construct c names gc w = Returns self w'
        /\ heap w' !! self = Some d
        /\ length (_input d) = mininputqty c)
  /\ (forall (self : nat) (d : device) (val : pyarg) (w : world),
        heap w !! self = Some d ->
        In_set self val w
        = Returns tt (store self (set_input (sources_given val) d) w)
        /\ sources_given val
           = match val with
             | One o => [Eval o]
             | Seq l => map Eval l
             end
        /\ length (sources_given val) = provided val).
Proof.
  split.
  - intros c names gc w.
    destruct (construct_spec c names gc w) as (self & w' & d & E & L & _ & _ & Hin).
    exists self, w', d. split; [exact E|]. split; [exact L|].
    rewrite Hin. apply repeat_length.
  - intros self d val w Hd. destruct val as [o|l]; simpl.
    + split; [by apply modify_eq | split; reflexivity].
    + split; [by apply modify_eq | split; [reflexivity | apply length_map]].
Qed.

Lemma arity_as_built_then_as_given_witness :
  In_set 1 (One (OVal (VBool true))) four_gates
  = Returns tt (store 1 (set_input (sources_given (One (OVal (VBool true))))
                           (initialised 2 [] (blank BoolAND))) four_gates)
  /\ sources_given (One (OVal (VBool true))) = [Eval (OVal (VBool true))]
  /\ length (sources_given (One (OVal (VBool true)))) = provided (One (OVal (VBool true))).
Proof.
  assert (H1 : heap four_gates !! 1 = Some (initialised 2 [] (blank BoolAND)))
    by (vm_compute; reflexivity).
  exact (proj2 arity_as_built_then_as_given 1 _ (One (OVal (VBool true))) four_gates H1).
Defined.

(** C4 fails on the code.  [__call__] tests the object the setter of
    [Enable] stored, never its value: after any assignment to [Enable] a
    call is a call of [_getvalue].  A NOT gate with a false input,
    disabled, returns true, and its value function has run. *)
Theorem enable_is_ignored :
  (forall (ev : callable -> M pyval) (self : nat) (val : pyobj) (w : world),
      (Enable_set self val >> __call__ ev self) w
      = (Enable_set self val >> _getvalue ev self) w)
  /\ returned (disabled_not_gate empty_world) = Some (VBool true)
  /\ evals <$> final_world (disabled_not_gate empty_world) = Some [0].
Proof.
  split; [|split; vm_compute; reflexivity].
  intros ev self val w. unfold Enable_set, bind, modify.
  destruct (heap w !! self) as [d|] eqn:Hd; [|reflexivity].
  unfold __call__, bind.
  rewrite (getobj_eq _ _ _ (heap_store_eq _ _ _)), object_truth_true. reflexivity.
Qed.

(** C5 fails on the code.  Given a sequence, [_inputState] raises
    [TypeError] whatever the sequence holds: neither the conflict nor
    floating is ever reported for one. *)
Theorem inputState_sequence_raises_TypeError :
  (forall (ev : callable -> M pyval) (l : list pyobj) (w : world),
      _inputState ev (Seq l) w = Raises TypeError w)
  /\ raised (_inputState (run 1)
               (Seq [OCall (CLambda (VBool true)); OCall (CLambda (VBool false))])
               empty_world) = Some TypeError
  /\ raised (_inputState (run 1)
               (Seq [OCall (CLambda VNone); OCall (CLambda VNone)])
               empty_world) = Some TypeError.
Proof. repeat split. Qed.

(** C7 fails on the code.  With J and K bound and CLK floating the
    gating gates have the inputs the constructor gave them; once CLK is
    bound as well they still have them, and the flip-flop has printed one
    line. *)
Theorem jk_gating_never_wired :
  returned (jk_all_bound empty_world)
  = Some (([CLambda VNone; CLambda VNone], [CLambda VNone; CLambda VNone]),
          ([CLambda VNone; CLambda VNone], [CLambda VNone; CLambda VNone]))
  /\ stdout <$> final_world (jk_all_bound empty_world)
     = Some [[OCall (CDev 2); OCall (CLambda (VBool true));
              OCall (CLambda (VBool true)); OCall (CLambda (VBool true))]].
Proof. split; vm_compute; reflexivity. Qed.

(** * Further properties *)

(** ** Evaluation neither allocates nor prints *)

Lemma quiet_refl (w : world) : quiet w w.
Proof. by split. Qed.

Lemma quiet_trans (w1 w2 w3 : world) : quiet w1 w2 -> quiet w2 w3 -> quiet w1 w3.
Proof. intros [A B] [C D]. split; congruence. Qed.

Lemma sq_ret {A} (a : A) : stays_quiet (ret a).
Proof. intros w. apply quiet_refl. Qed.

Lemma sq_raise {A} (e : pyerr) : stays_quiet (@raise A e).
Proof. intros w. apply quiet_refl. Qed.

Lemma sq_bind {A B} (m : M A) (k : A -> M B) :
  stays_quiet m -> (forall a, stays_quiet (k a)) -> stays_quiet (bind m k).
Proof.
  intros Hm Hk w. unfold bind. specialize (Hm w).
  destruct (m w) as [a w1|e w1|]; [|exact Hm|exact I].
  specialize (Hk a w1).
  destruct (k a w1) as [b w2|e w2|]; [| |exact I];
    eapply quiet_trans; eassumption.
Qed.

Lemma sq_getobj (self : nat) : stays_quiet (getobj self).
Proof. intros w. unfold getobj. destruct (heap w !! self); apply quiet_refl. Qed.

Lemma sq_modify (self : nat) (f : device -> device) : stays_quiet (modify self f).
Proof. intros w. unfold modify. destruct (heap w !! self); by split. Qed.

Lemma sq_tick (self : nat) : stays_quiet (tick self).
Proof. intros w. by split. Qed.

Lemma sq_subdevice (o : option nat) : stays_quiet (subdevice o).
Proof. destruct o; [apply sq_ret | apply sq_raise]. Qed.

Ltac quiets :=
  repeat match goal with
    | |- stays_quiet (ret _) => apply sq_ret
    | |- stays_quiet (raise _) => apply sq_raise
    | |- stays_quiet (getobj _) => apply sq_getobj
    | |- stays_quiet (tick _) => apply sq_tick
    | |- stays_quiet (subdevice _) => apply sq_subdevice
    | |- stays_quiet (modify _ _) => apply sq_modify
    | |- stays_quiet (bind _ _) => apply sq_bind; [|intro]
    | |- stays_quiet (if ?b then _ else _) => destruct b
    | |- stays_quiet (match ?x with _ => _ end) => destruct x
    | H : forall c, stays_quiet (?ev c) |- stays_quiet (?ev _) => apply H
    | H : stays_quiet ?m |- stays_quiet ?m => exact H
    end.

Lemma sq_recursiontrap (handler : nat -> M pyval) (self : nat) :
  (forall i, stays_quiet (handler i)) -> stays_quiet (recursiontrap handler self).
Proof. intros Hh. unfold recursiontrap. quiets. Qed.

Section QuietDevices.
Variable ev : callable -> M pyval.
Hypothesis Hev : forall c, stays_quiet (ev c).

Lemma sq_call_all (l : list pyobj) : stays_quiet (call_all ev l).
Proof.
  induction l as [|o l IH]; [apply sq_ret|].
  apply sq_bind; [destruct o; simpl; quiets|]. intros x. quiets.
Qed.

Lemma sq_inputState (value : pyarg) : stays_quiet (_inputState ev value).
Proof. unfold _inputState. quiets. all: apply sq_call_all. Qed.

Lemma sq_AND_loop (l : list callable) : stays_quiet (BoolAND_loop ev l).
Proof. induction l; [apply sq_ret|]. apply sq_bind; [apply sq_inputState|]. intros x. quiets. Qed.
Lemma sq_NOR_loop (l : list callable) : stays_quiet (BoolNOR_loop ev l).
Proof. induction l; [apply sq_ret|]. apply sq_bind; [apply sq_inputState|]. intros x. quiets. Qed.
Lemma sq_NAND_loop (l : list callable) : stays_quiet (BoolNAND_loop ev l).
Proof. induction l; [apply sq_ret|]. apply sq_bind; [apply sq_inputState|]. intros x. quiets. Qed.

Lemma sq_getvalue (self : nat) : stays_quiet (_getvalue ev self).
Proof.
  unfold _getvalue. quiets; apply sq_recursiontrap; intros i;
    unfold BoolNOT_getvalue, BoolAND_getvalue, BoolNOR_getvalue, BoolNAND_getvalue;
    quiets;
    first [ apply sq_inputState | apply sq_AND_loop
          | apply sq_NOR_loop | apply sq_NAND_loop ].
Qed.

Lemma sq_call_callable (c : callable) : stays_quiet (call_callable ev c).
Proof.
  destruct c as [v|d|d [|]]; simpl; unfold __call__, Q, Q_; quiets;
    apply sq_getvalue.
Qed.

Lemma sq_GetInput (self : nat) (name : string) : stays_quiet (GetInput ev self name).
Proof. unfold GetInput. quiets. apply sq_inputState. Qed.
End QuietDevices.

Lemma run_stays_quiet (n : nat) (c : callable) : stays_quiet (run n c).
Proof.
  revert c. induction n as [|n IH]; intros c.
  - intros w. exact I.
  - simpl. by apply sq_call_callable.
Qed.

(** X1. A call of any source, whether it returns or raises, leaves every
    object with its class, inputs, enable, named inputs and sub-devices,
    allocates nothing and prints nothing: it can change only the marks
    and cached values of the traps. *)
Theorem evaluation_only_touches_traps (n : nat) (c : callable) (w : world) :
  match run n c w with
  | Returns _ w' => same_wiring w w' /\ quiet w w'
  | Raises _ w' => same_wiring w w' /\ quiet w w'
  | TooDeep => True
  end.
Proof.
  pose proof (run_keeps_wiring n c w) as K.
  pose proof (run_stays_quiet n c w) as S.
  destruct (run n c w); try split; assumption.
Qed.

(** X2. On a single callable source [_inputState] returns what the
    source's value resolves to and leaves the store as the source left
    it; an exception of the source passes through, and the resolver
    raises none of its own.  On a scalar that is not callable it raises
    [TypeError]. *)
Theorem resolver_on_one_source (ev : callable -> M pyval) (c : callable) (w : world) :
  match ev c w with
  | Returns v w' => _inputState ev (One (OCall c)) w = Returns (resolve v) w'
  | Raises e w' => _inputState ev (One (OCall c)) w = Raises e w'
  | TooDeep => _inputState ev (One (OCall c)) w = TooDeep
  end
  /\ forall v : pyval, _inputState ev (One (OVal v)) w = Raises TypeError w.
Proof.
  split; [|reflexivity].
  destruct (ev c w) as [v w'|e w'|] eqn:E.
  - by apply inputState_one.
  - by apply inputState_one_raises.
  - by apply inputState_one_deep.
Qed.

Lemma store_same (i : nat) (d : device) (w : world) :
  heap w !! i = Some d -> store i d w = w.
Proof.
  intros H. destruct w as [h nx so ev]. unfold store, set_heap. simpl in *.
  by rewrite (insert_id _ _ _ H).
Qed.

Lemma store_comm (i j : nat) (a b : device) (w : world) :
  i <> j -> store i a (store j b w) = store j b (store i a w).
Proof.
  intros H. unfold store, set_heap. simpl. by rewrite insert_insert_ne.
Qed.

Lemma Eval_callable (c : callable) : Eval (OCall c) = c.
Proof. reflexivity. Qed.

Lemma map_Eval_OCall (l : list callable) : map Eval (map OCall l) = l.
Proof. rewrite map_map. simpl. apply map_id. Qed.

(** X3. Assigning to [In] what [In] reads leaves the store as it was,
    and assigning what it reads followed by further objects appends
    their sources to the inputs. *)
Theorem In_read_back (self : nat) (d : device) (w : world) (extra : list pyobj)
    (Hd : heap w !! self = Some d) :
  In_set self (Seq (map OCall (_input d))) w = Returns tt w
  /\ In_set self (Seq (map OCall (_input d) ++ extra)) w
     = Returns tt (store self (set_input (_input d ++ map Eval extra) d) w).
Proof.
  split.
  - unfold In_set. rewrite (modify_eq _ _ _ _ Hd), map_Eval_OCall.
    f_equal. apply store_same. rewrite Hd. f_equal. by destruct d.
  - unfold In_set. rewrite (modify_eq _ _ _ _ Hd), map_app, map_Eval_OCall.
    reflexivity.
Qed.

Lemma In_read_back_witness :
  In_set 1 (Seq (map OCall [CLambda VNone; CLambda VNone])) four_gates
  = Returns tt four_gates
  /\ In_set 1 (Seq (map OCall [CLambda VNone; CLambda VNone] ++ [OVal (VBool true)]))
       four_gates
     = Returns tt (store 1 (set_input ([CLambda VNone; CLambda VNone]
                                        ++ map Eval [OVal (VBool true)])
                              (initialised 2 [] (blank BoolAND))) four_gates).
Proof.
  assert (H1 : heap four_gates !! 1 = Some (initialised 2 [] (blank BoolAND)))
    by (vm_compute; reflexivity).
  exact (In_read_back 1 _ four_gates [OVal (VBool true)] H1).
Defined.

Lemma base_SetInput (ev : callable -> M pyval) (self : nat) (name : string)
    (ref : pyobj) (d : device) (w : world) :
  heap w !! self = Some d -> cls d <> BoolSRFF -> cls d <> BoolJKFF ->
  SetInput ev self name ref w
  = Returns tt (store self (set_indict (<[name := Eval ref]> (_indict d)) d) w).
Proof.
  intros Hd H1 H2. unfold SetInput, bind. rewrite (getobj_eq _ _ _ Hd).
  destruct (cls d); try congruence; by apply base_SetInput_eq.
Qed.

(** X4. On a device that is not a composite, [SetInput] of a constant
    under any name, declared or not, returns; [GetInput] of that name
    then returns what the constant resolves to, the other names keep
    their bindings and the positional inputs are unchanged. *)
Theorem SetInput_then_GetInput (ev : callable -> M pyval) (self : nat)
    (d : device) (w : world) (name : string) (v : pyval) (n : nat)
    (Hd : heap w !! self = Some d)
    (Hs : cls d <> BoolSRFF) (Hj : cls d <> BoolJKFF) :
  exists (w' : world) (d' : device),
    SetInput ev self name (OVal v) w = Returns tt w'
    /\ heap w' !! self = Some d'
    /\ GetInput (run (S n)) self name w' = Returns (resolve v) w'
    /\ (forall other : string, other <> name ->
          _indict d' !! other = _indict d !! other)
    /\ _input d' = _input d.
Proof.
  eexists _, _. split; [by apply base_SetInput|].
  split; [apply heap_store_eq|]. split; [|split].
  - rewrite (GetInput_eq _ _ _ _ (CLambda v) _ (heap_store_eq _ _ _)).
    + by rewrite (inputState_one _ _ _ _ _ (run_lambda n v _)).
    + simpl. apply lookup_insert_eq.
  - intros other Hne. simpl. by rewrite lookup_insert_ne.
  - reflexivity.
Qed.

Lemma SetInput_then_GetInput_witness :
  exists (w' : world) (d' : device),
    SetInput (run 0) 1 "a" (OVal (VInt 1)) four_gates = Returns tt w'
    /\ heap w' !! 1 = Some d'
    /\ GetInput (run (S 0)) 1 "a" w' = Returns (resolve (VInt 1)) w'
    /\ (forall other : string, other <> "a"%string ->
          _indict d' !! other = _indict (initialised 2 [] (blank BoolAND)) !! other)
    /\ _input d' = _input (initialised 2 [] (blank BoolAND)).
Proof.
  assert (H1 : heap four_gates !! 1 = Some (initialised 2 [] (blank BoolAND)))
    by (vm_compute; reflexivity).
  apply (SetInput_then_GetInput (run 0) 1 _ four_gates "a" (VInt 1) 0 H1);
    discriminate.
Defined.

Lemma initial_indict_lookup_None (names : list string) (name : string) :
  ~ In name names -> initial_indict names !! name = None.
Proof.
  unfold initial_indict.
  assert (G : forall (l : list string) (m : gmap string callable),
             ~ In name l -> m !! name = None ->
             foldl (fun m0 x => <[x := Eval (OVal VNone)]> m0) m l !! name = None).
  { induction l as [|x l IH]; intros m Hn Hm; simpl; [exact Hm|].
    apply IH; [intros H; apply Hn; by right|].
    rewrite lookup_insert_ne; [exact Hm|]. intros ->. apply Hn. by left. }
  intros H. apply G; [exact H | apply lookup_empty].
Qed.

(** X5. On a newly built object [GetInput] of a name its class does not
    declare raises [KeyError] and leaves the store unchanged. *)
Theorem undeclared_name_raises_KeyError (ev : callable -> M pyval) (c : devclass)
    (names : list string) (gc : option devclass) (w : world) (name : string)
    (Hname : ~ In name (declared c names)) :
  exists (self : nat) (w' : world),
    construct c names gc w = Returns self w'
    /\ GetInput ev self name w' = Raises (KeyError name) w'.
Proof.
  destruct (construct_spec c names gc w) as (self & w' & d & E & L & _ & Hi & _).
  exists self, w'. split; [exact E|].
  unfold GetInput, bind. rewrite (getobj_eq _ _ _ L), Hi.
  by rewrite (initial_indict_lookup_None _ _ Hname).
Qed.

Lemma undeclared_name_raises_KeyError_witness :
  exists (self : nat) (w' : world),
    construct BoolSRFF [] None empty_world = Returns self w'
    /\ GetInput (run 0) self "Q" w' = Raises (KeyError "Q") w'.
Proof.
  apply (undeclared_name_raises_KeyError (run 0) BoolSRFF [] None empty_world "Q").
  simpl. intros [H|[H|[]]]; discriminate.
Defined.

(** X6. On a latch, setting R then S leaves the same store as setting S
    then R. *)
Theorem latch_SetInput_commute (ev : callable -> M pyval) (l i1 i2 : nat)
    (dl d1 d2 : device) (a b : pyobj) (w : world)
    (Hl : heap w !! l = Some dl) (Hc : cls dl = BoolSRFF)
    (H1 : IC1 dl = Some i1) (H2 : IC2 dl = Some i2)
    (Hd1 : heap w !! i1 = Some d1) (Hd2 : heap w !! i2 = Some d2)
    (Hl1 : l <> i1) (Hl2 : l <> i2) (H12 : i1 <> i2) :
  (SetInput ev l "R" a >> SetInput ev l "S" b) w
  = (SetInput ev l "S" b >> SetInput ev l "R" a) w.
Proof.
  pose proof (SetInput_R ev l i1 i2 a dl d1 w Hl Hc H1 H2 Hd1 Hl1) as ER.
  pose proof (SetInput_S ev l i1 i2 b dl d2 w Hl Hc H1 H2 Hd2 Hl2) as ES.
  rewrite (returned_bind_tt _ _ _ _ ER), (returned_bind_tt _ _ _ _ ES).
  set (dR := set_indict (<["R"%string := Eval a]> (_indict dl)) dl).
  set (dS := set_indict (<["S"%string := Eval b]> (_indict dl)) dl).
  rewrite (SetInput_S ev l i1 i2 b dR d2)
    by first [assumption | reflexivity | lookups; first [assumption | reflexivity]].
  rewrite (SetInput_R ev l i1 i2 a dS d1)
    by first [assumption | reflexivity | lookups; first [assumption | reflexivity]].
  f_equal.
  rewrite (store_comm l i1) by assumption. rewrite store_store.
  rewrite (store_comm i2 i1) by congruence.
  rewrite (store_comm l i2) by assumption. rewrite store_store.
  do 3 f_equal. unfold dR, dS, set_indict. simpl. f_equal.
  apply insert_insert_ne. discriminate.
Qed.

Lemma latch_SetInput_commute_witness :
  (SetInput (run 0) 0 "R" (OVal (VBool true)) >>
   SetInput (run 0) 0 "S" (OVal (VBool false))) nor_latch_built
  = (SetInput (run 0) 0 "S" (OVal (VBool false)) >>
     SetInput (run 0) 0 "R" (OVal (VBool true))) nor_latch_built.
Proof.
  assert (H0 : heap nor_latch_built !! 0
               = Some (set_IC2 2 (set_IC1 1 (initialised 1 ["R"; "S"]%string (blank BoolSRFF)))))
    by (vm_compute; reflexivity).
  assert (H1 : heap nor_latch_built !! 1 = Some (initialised 2 [] (blank BoolNOR)))
    by (vm_compute; reflexivity).
  assert (H2 : heap nor_latch_built !! 2 = Some (initialised 2 [] (blank BoolNOR)))
    by (vm_compute; reflexivity).
  apply (latch_SetInput_commute (run 0) 0 1 2 _ _ _ (OVal (VBool true)) (OVal (VBool false))
           nor_latch_built H0 eq_refl eq_refl eq_refl H1 H2); lia.
Defined.

(** X7. On a latch, [SetInput] of a name other than R and S records the
    binding in the latch and changes no gate. *)
Theorem latch_SetInput_other_name (ev : callable -> M pyval) (l : nat)
    (dl : device) (name : string) (ref : pyobj) (w : world)
    (Hl : heap w !! l = Some dl) (Hc : cls dl = BoolSRFF)
    (HR : name <> "R"%string) (HS : name <> "S"%string) :
  SetInput ev l name ref w
  = Returns tt (store l (set_indict (<[name := Eval ref]> (_indict dl)) dl) w).
Proof.
  unfold SetInput, bind. rewrite (getobj_eq _ _ _ Hl), Hc.
  unfold BoolSRFF_SetInput, bind.
  rewrite (base_SetInput_eq _ _ _ _ _ Hl).
  rewrite (getobj_eq _ _ _ (heap_store_eq _ _ _)).
  destruct (String.eqb_spec name "R") as [|_]; [congruence|].
  destruct (String.eqb_spec name "S") as [|_]; [congruence|].
  reflexivity.
Qed.

Lemma latch_SetInput_other_name_witness :
  SetInput (run 0) 0 "T" (OVal (VBool true)) nor_latch_built
  = Returns tt
      (store 0 (set_indict (<["T"%string := Eval (OVal (VBool true))]>
                  (_indict (set_IC2 2 (set_IC1 1
                     (initialised 1 ["R"; "S"]%string (blank BoolSRFF))))))
                  (set_IC2 2 (set_IC1 1 (initialised 1 ["R"; "S"]%string (blank BoolSRFF)))))
         nor_latch_built).
Proof.
  assert (H0 : heap nor_latch_built !! 0
               = Some (set_IC2 2 (set_IC1 1 (initialised 1 ["R"; "S"]%string (blank BoolSRFF)))))
    by (vm_compute; reflexivity).
  apply (latch_SetInput_other_name (run 0) 0 _ "T" (OVal (VBool true)) nor_latch_built H0);
    [reflexivity | discriminate | discriminate].
Defined.

Lemma trap_raises (handler : nat -> M pyval) (self : nat) (w w1 : world)
    (d : device) (e : pyerr) :
  heap w !! self = Some d -> ingetvalue d = false ->
  handler self (entered self d w) = Raises e w1 ->
  recursiontrap handler self w = Raises e w1.
Proof.
  intros Hd Hin Hh. unfold recursiontrap, bind.
  rewrite (getobj_eq _ _ _ Hd), Hin. simpl.
  rewrite (modify_eq _ _ _ _ Hd). unfold tick.
  change (note self _) with (entered self d w).
  by rewrite Hh.
Qed.

(** X8. A NOT gate with no input raises [IndexError] when called, and
    the call leaves the mark of its trap set: the next call does not
    raise, it returns the cached value and clears the mark. *)
Theorem failed_evaluation_leaves_trap_set (g : nat) (d : device) (w : world) (n : nat)
    (Hd : heap w !! g = Some d) (Hc : cls d = BoolNOT)
    (Hm : ingetvalue d = false) (Hin : _input d = []) :
  run (S n) (CDev g) w = Raises IndexError (entered g d w)
  /\ heap (entered g d w) !! g = Some (set_ingetvalue true d)
  /\ run (S n) (CDev g) (entered g d w)
     = Returns (lastget d)
         (store g (set_ingetvalue false (set_ingetvalue true d)) (entered g d w)).
Proof.
  split; [|split].
  - rewrite run_dev. unfold __call__, bind.
    rewrite (getobj_eq _ _ _ Hd), object_truth_true.
    unfold _getvalue, bind. rewrite (getobj_eq _ _ _ Hd), Hc.
    apply trap_raises with d; try assumption.
    unfold BoolNOT_getvalue, bind.
    rewrite (getobj_eq _ _ _ (heap_entered_eq _ _ _)). cbn [_input set_ingetvalue].
    by rewrite Hin.
  - apply heap_entered_eq.
  - rewrite run_dev. unfold __call__, bind.
    rewrite (getobj_eq _ _ _ (heap_entered_eq _ _ _)), object_truth_true.
    unfold _getvalue, bind.
    rewrite (getobj_eq _ _ _ (heap_entered_eq _ _ _)). cbn [cls set_ingetvalue].
    rewrite Hc.
    by rewrite (trap_reentrant _ _ _ _ (heap_entered_eq _ _ _)).
Qed.

Lemma failed_evaluation_leaves_trap_set_witness :
  run (S 0) (CDev 0) not_gate_unwired
  = Raises IndexError (entered 0 (set_input [] (initialised 1 [] (blank BoolNOT)))
                         not_gate_unwired)
  /\ heap (entered 0 (set_input [] (initialised 1 [] (blank BoolNOT))) not_gate_unwired) !! 0
     = Some (set_ingetvalue true (set_input [] (initialised 1 [] (blank BoolNOT))))
  /\ run (S 0) (CDev 0)
       (entered 0 (set_input [] (initialised 1 [] (blank BoolNOT))) not_gate_unwired)
     = Returns (lastget (set_input [] (initialised 1 [] (blank BoolNOT))))
         (store 0 (set_ingetvalue false
                     (set_ingetvalue true (set_input [] (initialised 1 [] (blank BoolNOT)))))
            (entered 0 (set_input [] (initialised 1 [] (blank BoolNOT))) not_gate_unwired)).
Proof.
  assert (H0 : heap not_gate_unwired !! 0
               = Some (set_input [] (initialised 1 [] (blank BoolNOT))))
    by (vm_compute; reflexivity).
  exact (failed_evaluation_leaves_trap_set 0 _ not_gate_unwired 0 H0 eq_refl eq_refl eq_refl).
Defined.

(** X9. A NOT gate given several inputs returns the negation of the
    first, whatever the others are: they are not called. *)
Theorem not_gate_reads_first_input_only (g : nat) (d : device) (w : world)
    (v : pyval) (rest : list pyobj) (n : nat)
    (Hd : heap w !! g = Some d) (Hc : cls d = BoolNOT) (Hm : ingetvalue d = false) :
  returned ((In_set g (Seq (OVal v :: rest)) >> run (2 + n) (CDev g)) w)
  = Some (VBool (negb (asserted v))).
Proof.
  unfold In_set.
  rewrite (returned_bind_tt _ _ _ _ (modify_eq _ _ _ _ Hd)).
  cbn [Nat.add]. rewrite run_dev.
  erewrite (not_fresh _ _ (set_input (map Eval (OVal v :: rest)) d) _ (CLambda v)
              (map Eval rest) v _ _ (heap_store_eq _ _ _));
    try reflexivity; try assumption.
  apply heap_entered_eq.
Qed.

Lemma not_gate_reads_first_input_only_witness :
  returned ((In_set 0 (Seq [OVal (VBool true); OVal (VBool false); OCall (CDev 7)]) >>
             run (2 + 0) (CDev 0)) four_gates)
  = Some (VBool (negb (asserted (VBool true)))).
Proof.
  assert (H0 : heap four_gates !! 0 = Some (initialised 1 [] (blank BoolNOT)))
    by (vm_compute; reflexivity).
  exact (not_gate_reads_first_input_only 0 _ four_gates (VBool true)
           [OVal (VBool false); OCall (CDev 7)] 0 H0 eq_refl eq_refl).
Defined.


Lemma scan_short (n : nat) (p : scan_shape) (vs : list pyval) (rest : list callable)
    (w : world) :
  existsb (stops p) vs = true ->
  scan (run (S n)) p (map CLambda vs ++ rest) w = Returns (early p) w.
Proof.
  induction vs as [|v vs IH]; [discriminate|]. intros H.
  cbn [map app existsb] in *. rewrite (scan_cons _ _ _ _ _ _ _ (run_lambda n v w)).
  fold (stops p v). destruct (stops p v); [reflexivity | by apply IH].
Qed.

(** X10. An AND, NOR or NAND gate whose leading constant inputs contain
    one that decides the output returns at that input: whatever follows
    is not called, and the store changes only by the gate's own cached
    value. *)
Theorem gates_stop_at_deciding_input (g : nat) (d : device) (p : scan_shape)
    (w : world) (vs : list pyval) (rest : list pyobj) (n : nat)
    (Hd : heap w !! g = Some d) (Hm : ingetvalue d = false)
    (Hp : shape_of (cls d) = Some p)
    (Hstop : existsb (stops p) vs = true) :
  (In_set g (Seq (map OVal vs ++ rest)) >> run (2 + n) (CDev g)) w
  = Returns (early p)
      (store g (set_lastget (early p) (set_input (map CLambda vs ++ map Eval rest) d))
         (note g w)).
Proof.
  unfold In_set.
  rewrite (returned_bind_tt _ _ _ _ (modify_eq _ _ _ _ Hd)).
  cbn [Nat.add]. rewrite run_dev.
  rewrite map_app, map_map. cbn [Eval].
  erewrite (gate_fresh _ _ _ _ (set_input (map CLambda vs ++ map Eval rest) d) _ p _
              (heap_store_eq _ _ _) Hp Hm).
  2: { cbn [_input set_input]. by apply scan_short. }
  2: { apply heap_entered_eq. }
  f_equal. unfold entered, note, store, set_heap. simpl.
  rewrite !insert_insert_eq. do 2 f_equal.
  destruct d; simpl in *; subst; reflexivity.
Qed.

Lemma gates_stop_at_deciding_input_witness :
  (In_set 1 (Seq (map OVal [VBool true; VBool false] ++ [OVal VNone; OCall (CDev 7)])) >>
   run (2 + 0) (CDev 1)) four_gates
  = Returns (VBool false)
      (store 1 (set_lastget (VBool false)
                  (set_input (map CLambda [VBool true; VBool false]
                              ++ map Eval [OVal VNone; OCall (CDev 7)])
                     (initialised 2 [] (blank BoolAND))))
         (note 1 four_gates)).
Proof.
  assert (H1 : heap four_gates !! 1 = Some (initialised 2 [] (blank BoolAND)))
    by (vm_compute; reflexivity).
  exact (gates_stop_at_deciding_input 1 _ (mkShape false (VBool false) (VBool true))
           four_gates [VBool true; VBool false] [OVal VNone; OCall (CDev 7)] 0
           H1 eq_refl eq_refl eq_refl).
Defined.


Lemma nor_both (l i1 i2 : nat) (r s : pyval) (n : nat) (ms : list method) :
  resolve r = VBool true -> resolve s = VBool true ->
  forall (q1 q2 : pyval) (w : world),
    latch_at BoolNOR l i1 i2 r s q1 q2 w ->
    exists w', calls (run (3 + n)) l ms w = Returns (map (fun _ => VBool false) ms) w'.
Proof.
  intros Hr Hs. induction ms as [|m ms IH]; intros q1 q2 w H.
  - eexists. reflexivity.
  - cbn [calls map]. unfold bind.
    destruct m; cbn [call_callable].
    + destruct (Q_step BoolNOR _ l i1 i2 r s q1 q2 w n eq_refl H) as (w1 & Hrun & H1).
      rewrite Hrun.
      destruct (IH _ _ _ H1) as (w2 & Hcalls). rewrite Hcalls.
      eexists. f_equal. f_equal.
      unfold gate_out, stops. by rewrite Hr.
    + destruct (Q__step BoolNOR _ l i1 i2 r s q1 q2 w n eq_refl H) as (w1 & Hrun & H1).
      rewrite Hrun.
      destruct (IH _ _ _ H1) as (w2 & Hcalls). rewrite Hcalls.
      eexists. f_equal. f_equal.
      unfold gate_out, stops. by rewrite Hs.
Qed.

(** X11. A latch of NOR gates with R and S both asserted-true raises no
    conflict: every call of [Q] and of [Q_] returns false. *)
Theorem nor_latch_both_asserted (l i1 i2 : nat) (in1 in2 : list callable)
    (q1 q2 vr vs : pyval) (w : world) (n : nat) (ms : list method)
    (Hlatch : latch_state BoolNOR l i1 i2 in1 in2 q1 q2 w)
    (Hr : resolve vr = VBool true) (Hs : resolve vs = VBool true) :
  returned ((SetInput (run n) l "R" (OVal vr) >>
             SetInput (run n) l "S" (OVal vs) >>
             calls (run (3 + n)) l ms) w)
  = Some (map (fun _ => VBool false) ms).
Proof.
  destruct (latch_SetInput_R (run n) BoolNOR _ _ _ _ _ _ _ _ (OVal vr) _ eq_refl Hlatch)
    as (w1 & E1 & H1).
  destruct (latch_SetInput_S (run n) BoolNOR _ _ _ _ _ _ _ _ (OVal vs) _ eq_refl H1)
    as (w2 & E2 & H2).
  rewrite (returned_bind_tt _ _ _ _ E1), (returned_bind_tt _ _ _ _ E2).
  destruct (nor_both l i1 i2 vr vs n ms Hr Hs _ _ _ H2) as (w3 & E3).
  by rewrite E3.
Qed.

Lemma nor_latch_both_asserted_witness :
  returned ((SetInput (run 0) 0 "R" (OVal (VBool true)) >>
             SetInput (run 0) 0 "S" (OVal (VInt 1)) >>
             calls (run (3 + 0)) 0 [MQ; MQ_; MQ]) nor_latch_built)
  = Some [VBool false; VBool false; VBool false].
Proof.
  apply (nor_latch_both_asserted 0 1 2 [CLambda VNone; CLambda VNone]
           [CLambda VNone; CLambda VNone] VNone VNone (VBool true) (VInt 1)
           nor_latch_built 0 [MQ; MQ_; MQ]); [|reflexivity|reflexivity].
  split; [lia|].
  exists (set_IC2 2 (set_IC1 1 (initialised 1 ["R"; "S"]%string (blank BoolSRFF)))),
    (initialised 2 [] (blank BoolNOR)), (initialised 2 [] (blank BoolNOR)).
  repeat split; vm_compute; reflexivity.
Defined.


Lemma nand_driven (l i1 i2 : nat) (r s : pyval) (q : bool) (n : nat) (ms : list method) :
  resolve r = VBool (negb q) -> resolve s = VBool q ->
  forall (q1 q2 : pyval) (w : world),
    latch_at BoolNAND l i1 i2 r s q1 q2 w ->
    exists w', calls (run (3 + n)) l ms w = Returns (map (shows q) ms) w'.
Proof.
  intros Hr Hs. induction ms as [|m ms IH]; intros q1 q2 w H.
  - eexists. reflexivity.
  - cbn [calls map]. unfold bind.
    destruct m; cbn [call_callable].
    + destruct (Q_step BoolNAND _ l i1 i2 r s q1 q2 w n eq_refl H) as (w1 & Hrun & H1).
      rewrite Hrun.
      destruct (IH _ _ _ H1) as (w2 & Hcalls). rewrite Hcalls.
      eexists. f_equal. f_equal.
      unfold gate_out, stops. rewrite Hr, Hs. by destruct q, q1 as [|[|]|].
    + destruct (Q__step BoolNAND _ l i1 i2 r s q1 q2 w n eq_refl H) as (w1 & Hrun & H1).
      rewrite Hrun.
      destruct (IH _ _ _ H1) as (w2 & Hcalls). rewrite Hcalls.
      eexists. f_equal. f_equal.
      unfold gate_out, stops. rewrite Hr, Hs. by destruct q, q2 as [|[|]|].
Qed.

Lemma nand_hold (l i1 i2 : nat) (r s : pyval) (q : bool) (n : nat) (ms : list method) :
  resolve r = VBool true -> resolve s = VBool true ->
  forall w : world,
    latch_at BoolNAND l i1 i2 r s (VBool q) (VBool (negb q)) w ->
    exists w', calls (run (3 + n)) l ms w = Returns (map (shows q) ms) w'.
Proof.
  intros Hr Hs.
  set (p := mkShape false (VBool true) (VBool false)).
  assert (Ev : forall a : bool,
             gate_out p r (gate_out p s (VBool a)) = VBool a
             /\ gate_out p s (gate_out p r (VBool a)) = VBool a
             /\ gate_out p s (VBool a) = VBool (negb a)
             /\ gate_out p r (VBool a) = VBool (negb a)
             /\ stops p r = false /\ stops p s = false).
  { intros a. unfold gate_out, stops. rewrite Hr, Hs. by destruct a. }
  induction ms as [|m ms IH]; intros w H.
  - eexists. reflexivity.
  - cbn [calls map]. unfold bind.
    destruct m; cbn [call_callable].
    + destruct (Q_step BoolNAND _ l i1 i2 r s _ _ w n eq_refl H) as (w1 & Hrun & H1).
      fold p in Hrun, H1.
      destruct (Ev q) as (E1 & E2 & E3 & E4 & E5 & E6).
      rewrite E1, E3, E5 in *. rewrite Hrun.
      destruct (IH _ H1) as (w2 & Hcalls). rewrite Hcalls.
      eexists. reflexivity.
    + destruct (Q__step BoolNAND _ l i1 i2 r s _ _ w n eq_refl H) as (w1 & Hrun & H1).
      fold p in Hrun, H1.
      destruct (Ev (negb q)) as (E1 & E2 & E3 & E4 & E5 & E6).
      rewrite E2, E4, E6, negb_involutive in *. rewrite Hrun.
      destruct (IH _ H1) as (w2 & Hcalls). rewrite Hcalls.
      eexists. reflexivity.
Qed.

(** X12. A latch of NAND gates shows true with S asserted-true and R
    asserted-false, false with the two exchanged, and with both
    asserted-true it keeps showing the output its cached values agree
    on. *)
Theorem nand_latch_table (l i1 i2 : nat) (in1 in2 : list callable)
    (q1 q2 vt vf : pyval) (q : bool) (w : world) (n : nat) (ms : list method)
    (Hlatch : latch_state BoolNAND l i1 i2 in1 in2 q1 q2 w)
    (Ht : resolve vt = VBool true) (Hf : resolve vf = VBool false) :
  returned ((SetInput (run n) l "S" (OVal vt) >>
             SetInput (run n) l "R" (OVal vf) >>
             calls (run (3 + n)) l ms) w)
  = Some (map (shows true) ms)
  /\ returned ((SetInput (run n) l "S" (OVal vf) >>
                SetInput (run n) l "R" (OVal vt) >>
                calls (run (3 + n)) l ms) w)
     = Some (map (shows false) ms)
  /\ (q1 = VBool q -> q2 = VBool (negb q) ->
      returned ((SetInput (run n) l "S" (OVal vt) >>
                 SetInput (run n) l "R" (OVal vt) >>
                 calls (run (3 + n)) l ms) w)
      = Some (map (shows q) ms)).
Proof.
  split; [|split].
  - destruct (latch_SetInput_S (run n) BoolNAND _ _ _ _ _ _ _ _ (OVal vt) _ eq_refl Hlatch)
      as (w1 & E1 & H1).
    destruct (latch_SetInput_R (run n) BoolNAND _ _ _ _ _ _ _ _ (OVal vf) _ eq_refl H1)
      as (w2 & E2 & H2).
    rewrite (returned_bind_tt _ _ _ _ E1), (returned_bind_tt _ _ _ _ E2).
    destruct (nand_driven l i1 i2 vf vt true n ms Hf Ht _ _ _ H2) as (w3 & E3).
    by rewrite E3.
  - destruct (latch_SetInput_S (run n) BoolNAND _ _ _ _ _ _ _ _ (OVal vf) _ eq_refl Hlatch)
      as (w1 & E1 & H1).
    destruct (latch_SetInput_R (run n) BoolNAND _ _ _ _ _ _ _ _ (OVal vt) _ eq_refl H1)
      as (w2 & E2 & H2).
    rewrite (returned_bind_tt _ _ _ _ E1), (returned_bind_tt _ _ _ _ E2).
    destruct (nand_driven l i1 i2 vt vf false n ms Ht Hf _ _ _ H2) as (w3 & E3).
    by rewrite E3.
  - intros -> ->.
    destruct (latch_SetInput_S (run n) BoolNAND _ _ _ _ _ _ _ _ (OVal vt) _ eq_refl Hlatch)
      as (w1 & E1 & H1).
    destruct (latch_SetInput_R (run n) BoolNAND _ _ _ _ _ _ _ _ (OVal vt) _ eq_refl H1)
      as (w2 & E2 & H2).
    rewrite (returned_bind_tt _ _ _ _ E1), (returned_bind_tt _ _ _ _ E2).
    destruct (nand_hold l i1 i2 vt vt q n ms Ht Ht _ H2) as (w3 & E3).
    by rewrite E3.
Qed.

Lemma nand_latch_table_witness :
  returned ((SetInput (run 0) 0 "S" (OVal (VBool true)) >>
             SetInput (run 0) 0 "R" (OVal (VBool false)) >>
             calls (run (3 + 0)) 0 [MQ; MQ_]) nand_latch_built)
  = Some [VBool true; VBool false]
  /\ returned ((SetInput (run 0) 0 "S" (OVal (VBool false)) >>
                SetInput (run 0) 0 "R" (OVal (VBool true)) >>
                calls (run (3 + 0)) 0 [MQ; MQ_]) nand_latch_built)
     = Some [VBool false; VBool true]
  /\ returned ((SetInput (run 0) 0 "S" (OVal (VBool true)) >>
                SetInput (run 0) 0 "R" (OVal (VBool true)) >>
                calls (run (3 + 0)) 0 [MQ; MQ_])
               (store 2 (set_lastget (VBool true) (initialised 2 [] (blank BoolNAND)))
                  (store 1 (set_lastget (VBool false) (initialised 2 [] (blank BoolNAND)))
                     nand_latch_built)))
     = Some [VBool false; VBool true].
Proof.
  assert (L : latch_state BoolNAND 0 1 2 [CLambda VNone; CLambda VNone]
                [CLambda VNone; CLambda VNone] VNone VNone nand_latch_built).
  { split; [lia|].
    exists (set_IC2 2 (set_IC1 1 (initialised 1 ["R"; "S"]%string (blank BoolSRFF)))),
      (initialised 2 [] (blank BoolNAND)), (initialised 2 [] (blank BoolNAND)).
    repeat split; vm_compute; reflexivity. }
  assert (L' : latch_state BoolNAND 0 1 2 [CLambda VNone; CLambda VNone]
                 [CLambda VNone; CLambda VNone] (VBool false) (VBool true)
                 (store 2 (set_lastget (VBool true) (initialised 2 [] (blank BoolNAND)))
                    (store 1 (set_lastget (VBool false) (initialised 2 [] (blank BoolNAND)))
                       nand_latch_built))).
  { split; [lia|].
    exists (set_IC2 2 (set_IC1 1 (initialised 1 ["R"; "S"]%string (blank BoolSRFF)))),
      (set_lastget (VBool false) (initialised 2 [] (blank BoolNAND))),
      (set_lastget (VBool true) (initialised 2 [] (blank BoolNAND))).
    repeat split; vm_compute; reflexivity. }
  split; [|split].
  - exact (proj1 (nand_latch_table 0 1 2 _ _ _ _ (VBool true) (VBool false) true
                    nand_latch_built 0 [MQ; MQ_] L eq_refl eq_refl)).
  - exact (proj1 (proj2 (nand_latch_table 0 1 2 _ _ _ _ (VBool true) (VBool false) true
                    nand_latch_built 0 [MQ; MQ_] L eq_refl eq_refl))).
  - exact (proj2 (proj2 (nand_latch_table 0 1 2 _ _ _ _ (VBool true) (VBool false) false
                    _ 0 [MQ; MQ_] L' eq_refl eq_refl)) eq_refl eq_refl).
Defined.

(** X13. Every constructor returns the next free identity, stores there
    an object of the class called, and leaves every object that existed
    as it was. *)
Theorem construction_only_allocates (c : devclass) (names : list string)
    (gc : option devclass) (w : world) :
  exists (w' : world) (d : device),
    construct c names gc w = Returns (next w) w'
    /\ heap w' !! next w = Some d /\ cls d = c
    /\ only_allocates w w'.
Proof.
  assert (G : forall c0 ns, exists (w' : world) (d : device),
             new_gate c0 ns w = Returns (next w) w'
             /\ heap w' !! next w = Some d /\ cls d = c0 /\ only_allocates w w').
  { intros c0 ns. rewrite new_gate_eq. eexists _, _. split; [reflexivity|].
    split; [apply heap_store_eq|]. split; [reflexivity|].
    apply only_allocates_store; [|lia]. apply only_allocates_bump, only_allocates_refl. }
  destruct c; simpl construct; try apply G.
  - destruct (SRFF_init_spec _ (new_default_allocates (default BoolNOR gc)) w)
      as (w' & ic1 & ic2 & E & L & A).
    eexists _, _. split; [exact E|]. split; [exact L|]. split; [reflexivity | exact A].
  - destruct (new_BoolJKFF_spec w) as (w' & d & E & L & W & A).
    eexists _, _. split; [exact E|]. split; [exact L|]. split; [|exact A].
    unfold wiring in W. by injection W.
  - rewrite new_TestDevice_eq. eexists _, _. split; [reflexivity|].
    split; [apply heap_store_eq|]. split; [reflexivity|].
    apply only_allocates_store; [|lia]. apply only_allocates_bump, only_allocates_refl.
Qed.

Lemma GetInput_const (self : nat) (d : device) (name : string) (v : pyval)
    (w : world) (n : nat) :
  heap w !! self = Some d -> _indict d !! name = Some (CLambda v) ->
  GetInput (run (S n)) self name w = Returns (resolve v) w.
Proof.
  intros Hd Hn. rewrite (GetInput_eq _ _ _ _ _ _ Hd Hn).
  by rewrite (inputState_one _ _ _ _ _ (run_lambda n v w)).
Qed.

(** X14. A [TestDevice] with constants set on in1 and in2: [out1]
    returns Python's [and] and [out2] Python's [or] of what the two
    resolve to, and a call of the device itself returns [None]. *)
Theorem TestDevice_outputs (ev : callable -> M pyval) (t : nat) (d : device)
    (w : world) (a b : pyval) (n : nat)
    (Hd : heap w !! t = Some d) (Hc : cls d = TestDevice) :
  returned ((SetInput ev t "in1" (OVal a) >> SetInput ev t "in2" (OVal b) >>
             out1 (run (S n)) t) w)
  = Some (py_and (resolve a) (resolve b))
  /\ returned ((SetInput ev t "in1" (OVal a) >> SetInput ev t "in2" (OVal b) >>
                out2 (run (S n)) t) w)
     = Some (py_or (resolve a) (resolve b))
  /\ returned ((SetInput ev t "in1" (OVal a) >> SetInput ev t "in2" (OVal b) >>
                run (S n) (CDev t)) w)
     = Some VNone.
Proof.
  assert (Hs : cls d <> BoolSRFF) by (rewrite Hc; discriminate).
  assert (Hj : cls d <> BoolJKFF) by (rewrite Hc; discriminate).
  pose proof (base_SetInput ev t "in1" (OVal a) d w Hd Hs Hj) as E1.
  set (d1 := set_indict (<["in1"%string := Eval (OVal a)]> (_indict d)) d) in *.
  pose proof (base_SetInput ev t "in2" (OVal b) d1 _ (heap_store_eq t d1 w) Hs Hj) as E2.
  rewrite store_store in E2.
  set (d2 := set_indict (<["in2"%string := Eval (OVal b)]> (_indict d1)) d1) in *.
  set (w2 := store t d2 w) in *.
  assert (L : heap w2 !! t = Some d2) by apply heap_store_eq.
  assert (I1 : _indict d2 !! "in1"%string = Some (CLambda a)).
  { unfold d2, d1. simpl. rewrite lookup_insert_ne by discriminate.
    apply lookup_insert_eq. }
  assert (I2 : _indict d2 !! "in2"%string = Some (CLambda b)).
  { unfold d2. simpl. apply lookup_insert_eq. }
  rewrite !(returned_bind_tt _ _ _ _ E1), !(returned_bind_tt _ _ _ _ E2).
  split; [|split].
  - unfold out1, bind. rewrite (GetInput_const _ _ _ _ _ n L I1).
    unfold py_and. destruct (truthy (resolve a)); [|reflexivity].
    by rewrite (GetInput_const _ _ _ _ _ n L I2).
  - unfold out2, bind. rewrite (GetInput_const _ _ _ _ _ n L I1).
    unfold py_or. destruct (truthy (resolve a)); [reflexivity|].
    by rewrite (GetInput_const _ _ _ _ _ n L I2).
  - rewrite run_dev. unfold __call__, bind.
    rewrite (getobj_eq _ _ _ L), object_truth_true.
    unfold _getvalue, bind. rewrite (getobj_eq _ _ _ L).
    unfold d2, d1. simpl. by rewrite Hc.
Qed.

Lemma TestDevice_outputs_witness :
  returned ((SetInput (run 0) 0 "in1" (OVal (VBool true)) >>
             SetInput (run 0) 0 "in2" (OVal VNone) >>
             out1 (run (S 0)) 0) test_device_built)
  = Some (py_and (resolve (VBool true)) (resolve VNone))
  /\ returned ((SetInput (run 0) 0 "in1" (OVal (VBool true)) >>
                SetInput (run 0) 0 "in2" (OVal VNone) >>
                out2 (run (S 0)) 0) test_device_built)
     = Some (py_or (resolve (VBool true)) (resolve VNone))
  /\ returned ((SetInput (run 0) 0 "in1" (OVal (VBool true)) >>
                SetInput (run 0) 0 "in2" (OVal VNone) >>
                run (S 0) (CDev 0)) test_device_built)
     = Some VNone.
Proof.
  assert (H0 : heap test_device_built !! 0
               = Some (initialised 1 ["in1"; "in2"]%string (blank TestDevice)))
    by (vm_compute; reflexivity).
  exact (TestDevice_outputs (run 0) 0 _ test_device_built (VBool true) VNone 0 H0 eq_refl).
Defined.

(** X15. A NOR gate wired to itself on both inputs, whose cached value
    is not asserted-true, exceeds every bound on the call depth: the
    re-entrant call on the first input clears the mark, so the call on
    the second input starts over. *)
Theorem self_fed_gate_never_returns (g : nat) (n : nat) :
  forall w : world, self_fed g w -> run n (CDev g) w = TooDeep.
Proof.
  induction n as [|n IH]; intros w (d & Hd & Hc & Hin & Hm & Hq); [reflexivity|].
  rewrite run_dev. unfold __call__, bind.
  rewrite (getobj_eq _ _ _ Hd), object_truth_true.
  unfold _getvalue, bind. rewrite (getobj_eq _ _ _ Hd), Hc.
  apply trap_too_deep with d; try assumption.
  unfold BoolNOR_getvalue, bind.
  rewrite (getobj_eq _ _ _ (heap_entered_eq _ _ _)). cbn [_input set_ingetvalue].
  rewrite Hin, BoolNOR_loop_scan.
  destruct n as [|m].
  - cbn [scan]. unfold bind.
    by rewrite (inputState_one_deep (run 0) (CDev g) (entered g d w) eq_refl).
  - assert (Hre : run (S m) (CDev g) (entered g d w)
                  = Returns (lastget d)
                      (store g (set_ingetvalue false (set_ingetvalue true d))
                         (entered g d w))).
    { rewrite run_dev.
      apply (gate_reentrant _ _ _ _ (mkShape true (VBool false) (VBool true))
               (heap_entered_eq _ _ _)); [simpl; by rewrite Hc | reflexivity]. }
    rewrite (scan_cons _ _ _ _ _ _ _ Hre). cbn [stop].
    fold (asserted (lastget d)). rewrite Hq. cbn [Bool.eqb].
    cbn [scan]. unfold bind.
    rewrite (inputState_one_deep (run (S m)) (CDev g)); [reflexivity|].
    apply IH. exists (set_ingetvalue false (set_ingetvalue true d)).
    split; [apply heap_store_eq|]. repeat split; assumption.
Qed.

Lemma self_fed_gate_never_returns_witness :
  run 50 (CDev 0) nor_gate_self_fed = TooDeep.
Proof.
  apply (self_fed_gate_never_returns 0 50 nor_gate_self_fed).
  exists (set_input [CDev 0; CDev 0] (initialised 2 [] (blank BoolNOR))).
  repeat split; vm_compute; reflexivity.
Defined.

(** X16. [SetInput] of a constant on a JK flip-flop whose J, K and CLK
    are then bound to constants records the binding and changes nothing
    else; it prints one line exactly when none of the three values is
    [None]. *)
Theorem jk_SetInput_never_rewires (ff ic2 : nat) (d : device) (w : world)
    (name : string) (v j k c : pyval) (n : nat)
    (Hd : heap w !! ff = Some d) (Hc : cls d = BoolJKFF)
    (Hn : InputNames d = ["J"; "K"; "CLK"]%string) (H2 : IC2 d = Some ic2)
    (HJ : <[name := CLambda v]> (_indict d) !! "J"%string = Some (CLambda j))
    (HK : <[name := CLambda v]> (_indict d) !! "K"%string = Some (CLambda k))
    (HC : <[name := CLambda v]> (_indict d) !! "CLK"%string = Some (CLambda c)) :
  SetInput (run (S n)) ff name (OVal v) w
  = Returns tt
      (if is_None j || is_None k || is_None c
       then store ff (set_indict (<[name := CLambda v]> (_indict d)) d) w
       else printed [OCall (CDev ic2); OCall (CLambda j); OCall (CLambda k);
                     OCall (CLambda c)]
              (store ff (set_indict (<[name := CLambda v]> (_indict d)) d) w)).
Proof.
  unfold SetInput, bind. rewrite (getobj_eq _ _ _ Hd), Hc.
  unfold BoolJKFF_SetInput, bind.
  rewrite (base_SetInput_eq _ _ _ _ _ Hd). cbn [Eval].
  set (d' := set_indict (<[name := CLambda v]> (_indict d)) d).
  set (w' := store ff d' w).
  assert (L : heap w' !! ff = Some d') by apply heap_store_eq.
  rewrite (getobj_eq _ _ _ L).
  change (InputNames d') with (InputNames d). rewrite Hn.
  change (_indict d') with (<[name := CLambda v]> (_indict d)) in *.
  cbn [all_bound]. unfold bind.
  rewrite (getobj_eq _ _ _ L).
  change (_indict d') with (<[name := CLambda v]> (_indict d)).
  rewrite HJ, run_lambda.
  destruct j; cbn [is_None orb]; try reflexivity;
    rewrite (getobj_eq _ _ _ L);
    change (_indict d') with (<[name := CLambda v]> (_indict d));
    rewrite HK, run_lambda;
    destruct k; cbn [is_None orb]; try reflexivity;
    rewrite (getobj_eq _ _ _ L);
    change (_indict d') with (<[name := CLambda v]> (_indict d));
    rewrite HC, run_lambda;
    destruct c; cbn [is_None orb]; try reflexivity;
    cbn [ret]; rewrite (getobj_eq _ _ _ L);
    change (IC2 d') with (IC2 d); rewrite H2; cbn [subdevice ret];
    change (_indict d') with (<[name := CLambda v]> (_indict d));
    rewrite HJ, HK, HC; reflexivity.
Qed.

Lemma jk_SetInput_never_rewires_witness :
  SetInput (run (S 0)) 0 "J" (OVal (VBool true)) jk_built
  = Returns tt
      (if is_None (VBool true) || is_None VNone || is_None VNone
       then store 0 (set_indict (<["J"%string := CLambda (VBool true)]>
                                   (initial_indict ["J"; "K"; "CLK"]%string))
                       (set_ICK 4 (set_ICJ 3 (set_IC2 2 (set_IC1 1
                          (initialised 1 ["J"; "K"; "CLK"]%string
                             (set_InputNames ["J"; "K"; "CLK"]%string (blank BoolJKFF)))))))) jk_built
       else printed [OCall (CDev 2); OCall (CLambda (VBool true)); OCall (CLambda VNone);
                     OCall (CLambda VNone)]
              (store 0 (set_indict (<["J"%string := CLambda (VBool true)]>
                                      (initial_indict ["J"; "K"; "CLK"]%string))
                          (set_ICK 4 (set_ICJ 3 (set_IC2 2 (set_IC1 1
                             (initialised 1 ["J"; "K"; "CLK"]%string
                                (set_InputNames ["J"; "K"; "CLK"]%string (blank BoolJKFF)))))))) jk_built)).
Proof.
  assert (H0 : heap jk_built !! 0
               = Some (set_ICK 4 (set_ICJ 3 (set_IC2 2 (set_IC1 1
                         (initialised 1 ["J"; "K"; "CLK"]%string
                            (set_InputNames ["J"; "K"; "CLK"]%string (blank BoolJKFF))))))))
    by (vm_compute; reflexivity).
  apply (jk_SetInput_never_rewires 0 2 _ jk_built "J" (VBool true) (VBool true) VNone VNone 0
           H0 eq_refl eq_refl eq_refl); vm_compute; reflexivity.
Defined.

